(** * GitHub client and repository cache of [go-libs/github]

    A shallow embedding of the two Go files of the package:

    - the client file ([NewClient] and the typed operations
      [Versions], [CreateRelease], [GetRepo], [ListRepositories],
      [ListRuns], [CompareCommits], [ListPullRequests],
      [EditPullRequest], [CreatePullRequest], [GetPullRequest]);
    - [repositories.go] ([repositoryCacheTTL], [NewRepositoryCache],
      [repositoryCache.Load], [Repositories], [Repo]).

    Go values of type [(T, error)] are pairs [T * option error] ([None]
    is a nil error); a returned pointer [*T] is an [option T] ([None] is
    the nil pointer); a Go [int] and a [time.Duration] are integers in
    [Z] (nanoseconds for durations); strings are [string]; a slice is a
    [list] (the nil slice and the empty slice are both []).  Code that
    reads the token source or talks to the remote is written in a state
    monad over the state it touches.  The [ctx] argument of the
    operations carries cancellation and deadlines only and is left out.
    [fmt.Sprintf] with the verbs [%s] and [%v] on strings is string
    concatenation; [%d] on an [int] is its decimal form ([pretty]). *)

From stdpp Require Import base option list strings gmap pretty.
From Stdlib Require Import ZArith Lia.

Local Open Scope string_scope.
Local Open Scope list_scope.
Local Open Scope Z_scope.

(** ** JSON values *)

(** The decoded form of a JSON text.  Numbers are the integers; the
    members of an object are kept in document order, duplicates
    included, because the Go decoder visits them in that order. *)
#[warnings="-register-all"]
Inductive json : Type :=
| JNull
| JBool (b : bool)
| JNum (n : Z)
| JStr (s : string)
| JArr (l : list json)
| JObj (members : list (string * json)).

(** The name the Go decoder uses for a JSON value in its type errors. *)
Definition json_kind (j : json) : string :=
  match j with
  | JNull => "null"
  | JBool _ => "bool"
  | JNum _ => "number"
  | JStr _ => "string"
  | JArr _ => "array"
  | JObj _ => "object"
  end.

(** First member of an object with the given key. *)
Fixpoint member (k : string) (ms : list (string * json)) : option json :=
  match ms with
  | [] => None
  | (k', v) :: ms' => if decide (k' = k) then Some v else member k ms'
  end.

(** ** Errors *)

(** A Go [error] value.  [errorString] is an error made by a collaborator
    ([errors.New]); [wrapError] is what [fmt.Errorf] builds for a format
    with one [%w] verb: the formatted message and the wrapped error. *)
Inductive error : Type :=
| errorString (s : string)
| wrapError (msg : string) (err : error)
| APIError (StatusCode : Z) (body : option json)
| UnmarshalTypeError (Value : string) (Type_ : string).

(** [err.Error()] *)
Definition Error (e : error) : string :=
  match e with
  | errorString s => s
  | wrapError msg _ => msg
  | APIError st _ => "http status " +:+ pretty st
  | UnmarshalTypeError v t =>
      "json: cannot unmarshal " +:+ v +:+ " into Go value of type " +:+ t
  end.

(** [errors.Unwrap] *)
Definition Unwrap (e : error) : option error :=
  match e with
  | wrapError _ err => Some err
  | _ => None
  end.

(** [fmt.Errorf(prefix + "%w", err)] *)
Definition Errorf_w (prefix : string) (err : error) : error :=
  wrapError (prefix +:+ Error err) err.

(** ** Decoding and encoding with [encoding/json] *)

(** ASCII lower-casing, for the decoder's case-insensitive key match. *)
Definition lower_ascii (c : Ascii.ascii) : Ascii.ascii :=
  let n := Ascii.N_of_ascii c in
  if ((65 <=? n) && (n <=? 90))%N then Ascii.ascii_of_N (n + 32) else c.

Fixpoint lower (s : string) : string :=
  match s with
  | EmptyString => EmptyString
  | String c s' => String (lower_ascii c) (lower s')
  end.

Definition equalFold (a b : string) : bool :=
  bool_decide (lower a = lower b).

(** What [json.Unmarshal] needs to know of a Go type: its zero value and
    how a JSON value is stored into a variable of the type.  The decoder
    returns the new contents of the variable and the first error met
    (it keeps decoding after a type error). *)
Class Unmarshal (A : Type) := {
  zero : A;
  unmarshal : json -> A -> A * option error
}.

(** What [json.Marshal] needs to know of a Go type. *)
Class Marshal (A : Type) := {
  marshal : A -> json
}.

(** The decoder records only the first error. *)
Definition saveError (old new : option error) : option error :=
  match old with
  | Some _ => old
  | None => new
  end.

#[export] Instance Unmarshal_string : Unmarshal string := {|
  zero := "";
  unmarshal j cur :=
    match j with
    | JNull => (cur, None)
    | JStr s => (s, None)
    | _ => (cur, Some (UnmarshalTypeError (json_kind j) "string"))
    end
|}.

(** Go [int] is 64 bits wide on the platforms the package is built for. *)
Definition fits_int (n : Z) : bool :=
  (- 2 ^ 63 <=? n) && (n <? 2 ^ 63).

#[export] Instance Unmarshal_int : Unmarshal Z := {|
  zero := 0;
  unmarshal j cur :=
    match j with
    | JNull => (cur, None)
    | JNum n =>
        if fits_int n then (n, None)
        else (cur, Some (UnmarshalTypeError "number" "int"))
    | _ => (cur, Some (UnmarshalTypeError (json_kind j) "int"))
    end
|}.

#[export] Instance Unmarshal_bool : Unmarshal bool := {|
  zero := false;
  unmarshal j cur :=
    match j with
    | JNull => (cur, None)
    | JBool b => (b, None)
    | _ => (cur, Some (UnmarshalTypeError (json_kind j) "bool"))
    end
|}.

(** Elements of an array, each decoded into a fresh zero element. *)
Fixpoint unmarshal_elems `{Unmarshal A} (l : list json) : list A * option error :=
  match l with
  | [] => ([], None)
  | j :: l' =>
      let '(x, e) := unmarshal j zero in
      let '(xs, es) := unmarshal_elems l' in
      (x :: xs, saveError e es)
  end.

(** A slice: [null] stores nil, an array replaces the contents. *)
#[export] Instance Unmarshal_slice `{Unmarshal A} : Unmarshal (list A) := {|
  zero := [];
  unmarshal j cur :=
    match j with
    | JNull => ([], None)
    | JArr l => unmarshal_elems l
    | _ => (cur, Some (UnmarshalTypeError (json_kind j) "slice"))
    end
|}.

(** A struct field as the decoder sees it: its JSON name (the tag) and
    the action that decodes a value into that field of the struct. *)
Definition fieldDecoder (A : Type) : Type :=
  string * (json -> A -> A * option error).

(** The field for a key: an exact match of the name first, a
    case-insensitive one otherwise. *)
Definition findField {A} (fields : list (fieldDecoder A)) (k : string)
  : option (json -> A -> A * option error) :=
  match List.find (fun f => bool_decide (f.1 = k)) fields with
  | Some f => Some f.2
  | None =>
      match List.find (fun f => equalFold f.1 k) fields with
      | Some f => Some f.2
      | None => None
      end
  end.

(** Members are decoded in order; a key with no field is skipped. *)
Fixpoint unmarshal_members {A} (fields : list (fieldDecoder A))
    (ms : list (string * json)) (cur : A) : A * option error :=
  match ms with
  | [] => (cur, None)
  | (k, v) :: ms' =>
      match findField fields k with
      | Some dec =>
          let '(cur', e) := dec v cur in
          let '(res, es) := unmarshal_members fields ms' cur' in
          (res, saveError e es)
      | None => unmarshal_members fields ms' cur
      end
  end.

Definition unmarshal_struct {A} (name : string) (fields : list (fieldDecoder A))
    (j : json) (cur : A) : A * option error :=
  match j with
  | JNull => (cur, None)
  | JObj ms => unmarshal_members fields ms cur
  | _ => (cur, Some (UnmarshalTypeError (json_kind j) name))
  end.

(** Decode into one field through a getter and a setter. *)
Definition field `{Unmarshal B} {A} (tag : string) (get : A -> B)
    (set : B -> A -> A) : fieldDecoder A :=
  (tag, fun j cur => let '(b, e) := unmarshal j (get cur) in (set b cur, e)).

(** [omitempty] on a string field and on a bool field. *)
Definition omitempty_string (tag : string) (v : string) : list (string * json) :=
  if decide (v = "") then [] else [(tag, JStr v)].

Definition omitempty_bool (tag : string) (v : bool) : list (string * json) :=
  if v then [(tag, JBool true)] else [].

(** ** [net/http]: requests, responses, headers *)

Module http.

(** [http.Header] is a map from canonical header names to their
    values.  Go canonicalises the name on every access; the one name
    the package uses, "Authorization", is already canonical. *)
Abbreviation Header := (gmap string (list string)).

(** [h.Set(key, value)]: the value replaces whatever the key held. *)
Definition Set_ (h : Header) (key value : string) : Header :=
  <[key := [value]]> h.

(** [h.Get(key)]: the first value of the key, or the empty string. *)
Definition Get (h : Header) (key : string) : string :=
  match h !! key with
  | Some (v :: _) => v
  | _ => ""
  end.

(** A request as the transport receives it.  [Data] is the request
    payload in its JSON form, when the call has one. *)
Record Request : Type := {
  Method : string;
  URL : string;
  Headers : Header;
  Data : option json
}.

(** A response: the status code and the body as the JSON value it
    denotes ([None] for a body that is not JSON). *)
Record Response : Type := {
  StatusCode : Z;
  Body : option json
}.

(** [RoundTrip] answers a request with a response or a transport
    error. *)
Definition RoundTripper : Type := Request -> Response + error.

End http.

(** ** The request pipeline [httpclient.ApiClient] *)

Module httpclient.

Section WithTokenState.

(** [S] is the state of whatever the visitors consult (for this
    package: the token source). *)
Context {S : Type}.

(** What a call can touch: the visitors' state and the wire, the
    list of the requests handed to the transport so far, oldest
    first. *)
Record World : Type := {
  source : S;
  wire : list http.Request
}.

Definition M (A : Type) : Type := World -> A * World.

Definition ret {A} (a : A) : M A := fun w => (a, w).

Definition bind {A B} (m : M A) (k : A -> M B) : M B :=
  fun w => let '(a, w') := m w in k a w'.

(** A [RequestVisitor] is a [func(r *http.Request) error]: it may
    change the request, may fail, and may advance the state it
    closes over. *)
Definition RequestVisitor : Type :=
  http.Request -> S -> (http.Request * option error) * S.

Record ClientConfig : Type := {
  Visitors : list RequestVisitor;
  RetryTimeout : Z;
  HTTPTimeout : Z;
  InsecureSkipVerify : bool;
  DebugHeaders : bool;
  DebugTruncateBytes : Z;
  RateLimitPerSecond : Z;
  Transport : http.RoundTripper
}.

Record ApiClient : Type := {
  config : ClientConfig
}.

Definition NewApiClient (cfg : ClientConfig) : ApiClient :=
  {| config := cfg |}.

(** Run one visitor against the visitors' state. *)
Definition visit (v : RequestVisitor) (r : http.Request)
  : M (http.Request * option error) :=
  fun w =>
    let '(res, s') := v r (source w) in
    (res, {| source := s'; wire := wire w |}).

(** The visitors in order, stopping at the first that fails. *)
Fixpoint runVisitors (vs : list RequestVisitor) (r : http.Request)
  : M (http.Request * option error) :=
  match vs with
  | [] => ret (r, None)
  | v :: vs' =>
      bind (visit v r) (fun '(r', e) =>
        match e with
        | Some _ => ret (r', e)
        | None => runVisitors vs' r'
        end)
  end.

(** Hand a request to the transport: it goes on the wire. *)
Definition roundTrip (c : ApiClient) (r : http.Request)
  : M (http.Response + error) :=
  fun w =>
    (Transport (config c) r,
     {| source := source w; wire := wire w ++ [r] |}).

Definition is2xx (status : Z) : bool :=
  (200 <=? status) && (status <? 300).

(** Modelled from the spec: what [Do] makes of the transport's answer
    (spec section 4.1).  A transport error is returned as it is; a 2xx
    response is decoded into the caller's target when the call names
    one; any other response is an API error with the status code and
    the body, and the target keeps its contents. *)
Definition receive {A}
    (responseUnmarshal : option (json -> A -> A * option error))
    (target : A) (resp : http.Response + error) : A * option error :=
  match resp with
  | inr err => (target, Some err)
  | inl resp =>
      if is2xx (http.StatusCode resp) then
        match responseUnmarshal with
        | None => (target, None)
        | Some dec =>
            match http.Body resp with
            | Some j => dec j target
            | None => (target, Some (errorString "unexpected end of JSON input"))
            end
        end
      else (target, Some (APIError (http.StatusCode resp) (http.Body resp)))
  end.

(** Modelled from the spec: the body of [ApiClient.Do] is in the
    package [httpclient] of the SDK, outside these sources.  This is
    the contract of spec section 4.1: the visitors run before dispatch
    and a failing visitor aborts the call with no network call;
    otherwise the request goes to the transport once and the answer is
    handled by [receive].  Retries, timeouts, the rate limit, TLS and
    debug logging configure the transport and change none of this.

    [requestData] is the payload of [WithRequestData],
    [responseUnmarshal] is [Some] decoder when
    [WithResponseUnmarshal(&target)] is given.  The result is the
    contents of [target] after the call and the error. *)
Definition Do {A} (c : ApiClient) (method url : string)
    (requestData : option json)
    (responseUnmarshal : option (json -> A -> A * option error))
    (target : A) : M (A * option error) :=
  let r0 := {| http.Method := method; http.URL := url;
               http.Headers := ∅; http.Data := requestData |} in
  bind (runVisitors (Visitors (config c)) r0) (fun '(r, e) =>
    match e with
    | Some err => ret (target, Some err)
    | None =>
        bind (roundTrip c r) (fun resp =>
          ret (receive responseUnmarshal target resp))
    end).

End WithTokenState.

Arguments World : clear implicits.
Arguments M : clear implicits.
Arguments RequestVisitor : clear implicits.
Arguments ClientConfig : clear implicits.
Arguments ApiClient : clear implicits.

(** [WithRequestData(v)]: the payload is the JSON encoding of [v]. *)
Definition WithRequestData `{Marshal A} (v : A) : option json :=
  Some (marshal v).

(** [WithResponseUnmarshal(&target)]: decode with the target's type. *)
Definition WithResponseUnmarshal `{Unmarshal A}
  : option (json -> A -> A * option error) :=
  Some unmarshal.

End httpclient.


(** ** Package [github]: the records of [repositories.go] *)

Module License.
(** The anonymous struct of the field [License] of [Repo]. *)
Record t : Type := { Name : string }.

Definition fields : list (fieldDecoder t) :=
  [ field "name" Name (fun v _ => {| Name := v |}) ].
End License.

#[export] Instance Unmarshal_License : Unmarshal License.t := {|
  zero := {| License.Name := "" |};
  unmarshal := unmarshal_struct "struct" License.fields
|}.

Module Repo.
Record t : Type := mk {
  Name : string;
  Description : string;
  Langauge : string;
  DefaultBranch : string;
  Stars : Z;
  IsFork : bool;
  IsArchived : bool;
  Topics : list string;
  HtmlURL : string;
  CloneURL : string;
  SshURL : string;
  License : License.t
}.

(** Assignments to one field. *)
Definition set_Name (v : string) (r : t) : t :=
  let '(mk _ b c d e f g h i j k l) := r in mk v b c d e f g h i j k l.
Definition set_Description (v : string) (r : t) : t :=
  let '(mk a _ c d e f g h i j k l) := r in mk a v c d e f g h i j k l.
Definition set_Langauge (v : string) (r : t) : t :=
  let '(mk a b _ d e f g h i j k l) := r in mk a b v d e f g h i j k l.
Definition set_DefaultBranch (v : string) (r : t) : t :=
  let '(mk a b c _ e f g h i j k l) := r in mk a b c v e f g h i j k l.
Definition set_Stars (v : Z) (r : t) : t :=
  let '(mk a b c d _ f g h i j k l) := r in mk a b c d v f g h i j k l.
Definition set_IsFork (v : bool) (r : t) : t :=
  let '(mk a b c d e _ g h i j k l) := r in mk a b c d e v g h i j k l.
Definition set_IsArchived (v : bool) (r : t) : t :=
  let '(mk a b c d e f _ h i j k l) := r in mk a b c d e f v h i j k l.
Definition set_Topics (v : list string) (r : t) : t :=
  let '(mk a b c d e f g _ i j k l) := r in mk a b c d e f g v i j k l.
Definition set_HtmlURL (v : string) (r : t) : t :=
  let '(mk a b c d e f g h _ j k l) := r in mk a b c d e f g h v j k l.
Definition set_CloneURL (v : string) (r : t) : t :=
  let '(mk a b c d e f g h i _ k l) := r in mk a b c d e f g h i v k l.
Definition set_SshURL (v : string) (r : t) : t :=
  let '(mk a b c d e f g h i j _ l) := r in mk a b c d e f g h i j v l.
Definition set_License (v : License.t) (r : t) : t :=
  let '(mk a b c d e f g h i j k _) := r in mk a b c d e f g h i j k v.

(** The [json] tags of the struct, in declaration order. *)
Definition fields : list (fieldDecoder t) :=
  [ field "name" Name set_Name;
    field "description" Description set_Description;
    field "language" Langauge set_Langauge;
    field "default_branch" DefaultBranch set_DefaultBranch;
    field "stargazers_count" Stars set_Stars;
    field "fork" IsFork set_IsFork;
    field "archived" IsArchived set_IsArchived;
    field "topics" Topics set_Topics;
    field "html_url" HtmlURL set_HtmlURL;
    field "clone_url" CloneURL set_CloneURL;
    field "ssh_url" SshURL set_SshURL;
    field "license" License set_License ].
End Repo.

#[export] Instance Unmarshal_Repo : Unmarshal Repo.t := {|
  zero := Repo.mk "" "" "" "" 0 false false [] "" "" "" zero;
  unmarshal := unmarshal_struct "Repo" Repo.fields
|}.

(** [type Repositories []Repo] *)
Abbreviation Repositories := (list Repo.t).

(** ** Package [github]: the client *)

Definition gitHubAPI : string := "https://api.github.com".

(** What the visitor reads of the token [cfg.Token()] returns. *)
Record oauth2Token : Type := {
  TokenType : string;
  AccessToken : string
}.

Module GitHubConfig.
(** [Token] is the method of the embedded [GitHubTokenSource]: called
    in a state [S] of the source, it returns a token or an error and
    the next state. *)
Record t (S : Type) : Type := {
  Token : S -> (oauth2Token * option error) * S;
  RetryTimeout : Z;
  HTTPTimeout : Z;
  InsecureSkipVerify : bool;
  DebugHeaders : bool;
  DebugTruncateBytes : Z;
  RateLimitPerSecond : Z;
  transport : http.RoundTripper
}.
Arguments Token {S}.
Arguments RetryTimeout {S}.
Arguments HTTPTimeout {S}.
Arguments InsecureSkipVerify {S}.
Arguments DebugHeaders {S}.
Arguments DebugTruncateBytes {S}.
Arguments RateLimitPerSecond {S}.
Arguments transport {S}.
End GitHubConfig.

Record GitHubClient (S : Type) : Type := {
  api : httpclient.ApiClient S;
  cfg : GitHubConfig.t S
}.
Arguments api {S}.
Arguments cfg {S}.

(** The visitor [NewClient] installs: the closure over [cfg]. *)
Definition authorize {S} (c : GitHubConfig.t S) : httpclient.RequestVisitor S :=
  fun r s =>
    let '((token, err), s') := GitHubConfig.Token c s in
    match err with
    | Some err => ((r, Some (Errorf_w "token: " err)), s')
    | None =>
        let auth := TokenType token +:+ " " +:+ AccessToken token in
        (({| http.Method := http.Method r;
             http.URL := http.URL r;
             http.Headers := http.Set_ (http.Headers r) "Authorization" auth;
             http.Data := http.Data r |}, None), s')
    end.

Definition NewClient {S} (c : GitHubConfig.t S) : GitHubClient S :=
  {| api := httpclient.NewApiClient
       {| httpclient.Visitors := [authorize c];
          httpclient.RetryTimeout := GitHubConfig.RetryTimeout c;
          httpclient.HTTPTimeout := GitHubConfig.HTTPTimeout c;
          httpclient.InsecureSkipVerify := GitHubConfig.InsecureSkipVerify c;
          httpclient.DebugHeaders := GitHubConfig.DebugHeaders c;
          httpclient.DebugTruncateBytes := GitHubConfig.DebugTruncateBytes c;
          httpclient.RateLimitPerSecond := GitHubConfig.RateLimitPerSecond c;
          httpclient.Transport := GitHubConfig.transport c |};
     cfg := c |}.

Module CreateReleaseRequest.
Record t : Type := {
  TagName : string;
  Name : string;
  Body : string;
  Draft : bool;
  Prerelease : bool;
  GenerateReleaseNotes : bool;
  DiscussionCategoryName : string
}.

(** The members [json.Marshal] writes, in declaration order; every tag
    of the struct carries [omitempty]. *)
Definition members (r : t) : list (string * json) :=
  omitempty_string "tag_name" (TagName r) ++
  omitempty_string "name" (Name r) ++
  omitempty_string "body" (Body r) ++
  omitempty_bool "draft" (Draft r) ++
  omitempty_bool "prerelease" (Prerelease r) ++
  omitempty_bool "generate_release_notes" (GenerateReleaseNotes r) ++
  omitempty_string "discussion_category_name" (DiscussionCategoryName r).
End CreateReleaseRequest.

#[export] Instance Marshal_CreateReleaseRequest : Marshal CreateReleaseRequest.t := {|
  marshal r := JObj (CreateReleaseRequest.members r)
|}.

(** A pointer field or variable: [null] stores nil, any other value is
    decoded into the pointee (a fresh zero one when the pointer is nil). *)
#[export] Instance Unmarshal_ptr `{Unmarshal A} : Unmarshal (option A) := {|
  zero := None;
  unmarshal j cur :=
    match j with
    | JNull => (None, None)
    | _ => let '(v, e) := unmarshal j (default zero cur) in (Some v, e)
    end
|}.

Section Operations.

(** The state of the token source. *)
Context {S : Type}.

(** The records declared in the other files of the package, with their
    JSON decoding or encoding. *)
Context {Versions Release workflowRun RepositoryCommit PullRequest : Type}.
Context `{!Unmarshal Versions, !Unmarshal Release, !Unmarshal workflowRun,
          !Unmarshal RepositoryCommit, !Unmarshal PullRequest}.
Context {PullRequestListOptions PullRequestUpdate NewPullRequest : Type}.
Context `{!Marshal PullRequestListOptions, !Marshal PullRequestUpdate,
          !Marshal NewPullRequest}.

Import httpclient.

(** The method [Versions]; the type of its result has the same name. *)
Definition Versions_ (c : GitHubClient S) (org repo : string)
  : M S (Versions * option error) :=
  let releases : Versions := zero in
  let url := gitHubAPI +:+ "/repos/" +:+ org +:+ "/" +:+ repo +:+ "/releases" in
  bind (Do (api c) "GET" url None WithResponseUnmarshal releases)
    (fun '(releases, err) => ret (releases, err)).

Definition CreateRelease (c : GitHubClient S) (org repo : string)
    (req : CreateReleaseRequest.t) : M S (option Release * option error) :=
  let res : Release := zero in
  let url := gitHubAPI +:+ "/repos/" +:+ org +:+ "/" +:+ repo +:+ "/releases" in
  bind (Do (api c) "POST" url (WithRequestData req) WithResponseUnmarshal res)
    (fun '(res, err) => ret (Some res, err)).

Definition GetRepo (c : GitHubClient S) (org name : string)
  : M S (Repo.t * option error) :=
  let repo : Repo.t := zero in
  let url := gitHubAPI +:+ "/repos/" +:+ org +:+ "/" +:+ name in
  bind (Do (api c) "GET" url None WithResponseUnmarshal repo)
    (fun '(repo, err) => ret (repo, err)).

Definition ListRepositories (c : GitHubClient S) (org : string)
  : M S (Repositories * option error) :=
  let repos : Repositories := zero in
  let url := gitHubAPI +:+ "/users/" +:+ org +:+ "/repos" in
  bind (Do (api c) "GET" url None WithResponseUnmarshal repos)
    (fun '(repos, err) => ret (repos, err)).

(** The local [response] struct of [ListRuns]. *)
Record runsResponse : Type := {
  TotalCount : option Z;
  WorkflowRuns : list workflowRun
}.

#[export] Instance Unmarshal_runsResponse : Unmarshal runsResponse := {|
  zero := {| TotalCount := None; WorkflowRuns := [] |};
  unmarshal := unmarshal_struct "struct"
    [ field "total_count" TotalCount
        (fun v r => {| TotalCount := v; WorkflowRuns := WorkflowRuns r |});
      field "workflow_runs" WorkflowRuns
        (fun v r => {| TotalCount := TotalCount r; WorkflowRuns := v |}) ]
|}.

Definition ListRuns (c : GitHubClient S) (org repo workflow : string)
  : M S (list workflowRun * option error) :=
  let path := gitHubAPI +:+ "/repos/" +:+ org +:+ "/" +:+ repo +:+
              "/actions/workflows/" +:+ workflow +:+ ".yml/runs" in
  let response : runsResponse := zero in
  bind (Do (api c) "GET" path None WithResponseUnmarshal response)
    (fun '(response, err) => ret (WorkflowRuns response, err)).

(** The local [response] struct of [CompareCommits]. *)
Record compareResponse : Type := {
  Commits : list RepositoryCommit
}.

#[export] Instance Unmarshal_compareResponse : Unmarshal compareResponse := {|
  zero := {| Commits := [] |};
  unmarshal := unmarshal_struct "struct"
    [ field "commits" Commits (fun v _ => {| Commits := v |}) ]
|}.

Definition CompareCommits (c : GitHubClient S) (org repo base head : string)
  : M S (list RepositoryCommit * option error) :=
  let path := gitHubAPI +:+ "/repos/" +:+ org +:+ "/" +:+ repo +:+
              "/compare/" +:+ base +:+ "..." +:+ head in
  let response : compareResponse := zero in
  bind (Do (api c) "GET" path None WithResponseUnmarshal response)
    (fun '(response, err) => ret (Commits response, err)).

Definition ListPullRequests (c : GitHubClient S) (org repo : string)
    (opts : PullRequestListOptions) : M S (list PullRequest * option error) :=
  let path := gitHubAPI +:+ "/repos/" +:+ org +:+ "/" +:+ repo +:+ "/pulls" in
  let prs : list PullRequest := zero in
  bind (Do (api c) "GET" path (WithRequestData opts) WithResponseUnmarshal prs)
    (fun '(prs, err) => ret (prs, err)).

Definition EditPullRequest (c : GitHubClient S) (org repo : string)
    (number : Z) (body : PullRequestUpdate) : M S (option error) :=
  let path := gitHubAPI +:+ "/repos/" +:+ org +:+ "/" +:+ repo +:+
              "/pulls/" +:+ pretty number in
  bind (Do (api c) "PATCH" path (WithRequestData body) None tt)
    (fun '(_, err) => ret err).

Definition CreatePullRequest (c : GitHubClient S) (org repo : string)
    (body : NewPullRequest) : M S (option PullRequest * option error) :=
  let path := gitHubAPI +:+ "/repos/" +:+ org +:+ "/" +:+ repo +:+ "/pulls" in
  let res : PullRequest := zero in
  bind (Do (api c) "POST" path (WithRequestData body) WithResponseUnmarshal res)
    (fun '(res, err) =>
       match err with
       | Some err => ret (None, Some err)
       | None => ret (Some res, None)
       end).

Definition GetPullRequest (c : GitHubClient S) (org repo : string)
    (number : Z) : M S (option PullRequest * option error) :=
  let path := gitHubAPI +:+ "/repos/" +:+ org +:+ "/" +:+ repo +:+
              "/pulls/" +:+ pretty number in
  let res : PullRequest := zero in
  bind (Do (api c) "GET" path None WithResponseUnmarshal res)
    (fun '(res, err) => ret (Some res, err)).

End Operations.

(** ** Package [localcache]: the TTL cache *)

Module localcache.

(** A cache entry: the value and the time it was fetched at
    (nanoseconds, as [time.Time] counts them). *)
Record Entry (T : Type) : Type := {
  value : T;
  fetchedAt : Z
}.
Arguments value {T}.
Arguments fetchedAt {T}.

(** The serialization of entries to the opaque blobs the store keeps;
    [decode] gives [None] on a blob it cannot read. *)
Class Codec (T Blob : Type) := {
  encode : Entry T -> Blob;
  decode : Blob -> option (Entry T)
}.

(** The durable store: the blob under each key, and whether the store
    accepts writes. *)
Record Store (Blob : Type) : Type := {
  blobs : gmap string Blob;
  writable : bool
}.
Arguments blobs {Blob}.
Arguments writable {Blob}.

Definition get {Blob} (st : Store Blob) (key : string) : option Blob :=
  blobs st !! key.

Definition put {Blob} (st : Store Blob) (key : string) (b : Blob)
  : Store Blob + error :=
  if writable st
  then inl {| blobs := <[key := b]> (blobs st); writable := writable st |}
  else inr (errorString "cache store: write failed").

(** [LocalCache[T]]: the directory of the store, the name of the entry
    and how long an entry stays fresh. *)
Record LocalCache (T : Type) : Type := {
  dir : string;
  name : string;
  validity : Z
}.
Arguments dir {T}.
Arguments name {T}.
Arguments validity {T}.

Definition NewLocalCache (T : Type) (dir name : string) (validity : Z)
  : LocalCache T :=
  {| dir := dir; name := name; validity := validity |}.

Section Load.

Context {T Blob W : Type} `{!Codec T Blob}.

(** Modelled from the spec: an entry is fresh iff
    [now - fetchedAt < TTL]. *)
Definition fresh (c : LocalCache T) (now : Z) (e : Entry T) : bool :=
  now - fetchedAt e <? validity c.

(** Modelled from the spec: the recompute step of [Load], shared by the
    absent, stale and corrupt states.  [computeFn] is called; its error
    is propagated with the store untouched; its value is persisted with
    [fetchedAt = now] and returned, and a failed write is returned as
    the error of the call. *)
Definition refresh (c : LocalCache T) (now : Z)
    (computeFn : W -> (T * option error) * W)
  : Store Blob * W -> (T * option error) * (Store Blob * W) :=
  fun '(st, w) =>
    let '((v, err), w') := computeFn w in
    match err with
    | Some err => ((v, Some err), (st, w'))
    | None =>
        match put st (name c) (encode {| value := v; fetchedAt := now |}) with
        | inl st' => ((v, None), (st', w'))
        | inr werr => ((v, Some werr), (st, w'))
        end
    end.

(** Modelled from the spec: [LocalCache.Load] is in the package
    [localcache] of this repository, outside these sources.  This is
    the state machine of spec section 4.3, at clock reading [now]: a
    fresh readable entry is returned without calling [computeFn]; an
    absent, unreadable or stale entry is recomputed. *)
Definition Load (c : LocalCache T) (now : Z)
    (computeFn : W -> (T * option error) * W)
  : Store Blob * W -> (T * option error) * (Store Blob * W) :=
  fun '(st, w) =>
    match get st (name c) ≫= decode with
    | Some e =>
        if fresh c now e then ((value e, None), (st, w))
        else refresh c now computeFn (st, w)
    | None => refresh c now computeFn (st, w)
    end.

(** A call counter around a [computeFn]: every call adds one. *)
Definition counted (computeFn : W -> (T * option error) * W)
  : W * nat -> (T * option error) * (W * nat) :=
  fun '(w, n) => let '(r, w') := computeFn w in (r, (w', Datatypes.S n)).

End Load.

End localcache.

(** ** Package [github]: the repository cache of [repositories.go] *)

(** [time.Hour] in nanoseconds. *)
Definition time_Hour : Z := 3600 * 1000000000.

Definition repositoryCacheTTL : Z := 24 * time_Hour.

Record repositoryCache (S : Type) : Type := {
  cache : localcache.LocalCache Repositories;
  client : GitHubClient S;
  Org : string
}.
Arguments cache {S}.
Arguments client {S}.
Arguments Org {S}.

Definition NewRepositoryCache {S} (client : GitHubClient S)
    (org cacheDir : string) : repositoryCache S :=
  let filename := org +:+ "-repositories" in
  {| cache := localcache.NewLocalCache Repositories cacheDir filename
                repositoryCacheTTL;
     client := client;
     Org := org |}.

(** [repositoryCache.Load]: the computation handed to the cache lists
    the repositories of [r.Org] (the debug log line leaves no trace in
    the model). *)
Definition Load {S Blob} `{!localcache.Codec Repositories Blob}
    (r : repositoryCache S) (now : Z)
  : localcache.Store Blob * httpclient.World S ->
    (Repositories * option error) * (localcache.Store Blob * httpclient.World S) :=
  localcache.Load (cache r) now
    (fun w => ListRepositories (client r) (Org r) w).

(** ** Encoding the records of the package *)

#[export] Instance Marshal_string : Marshal string := {| marshal := JStr |}.
#[export] Instance Marshal_int : Marshal Z := {| marshal := JNum |}.
#[export] Instance Marshal_bool : Marshal bool := {| marshal := JBool |}.

(** A slice: the nil slice, which is what [] stands for, is written
    [null]; a slice with elements is written as an array. *)
#[export] Instance Marshal_slice `{Marshal A} : Marshal (list A) := {|
  marshal l :=
    match l with
    | [] => JNull
    | _ => JArr (List.map marshal l)
    end
|}.

#[export] Instance Marshal_License : Marshal License.t := {|
  marshal l := JObj [("name", marshal (License.Name l))]
|}.

(** No tag of [Repo] carries [omitempty]: every field is written, under
    its tag, in declaration order. *)
#[export] Instance Marshal_Repo : Marshal Repo.t := {|
  marshal r :=
    JObj [ ("name", marshal (Repo.Name r));
           ("description", marshal (Repo.Description r));
           ("language", marshal (Repo.Langauge r));
           ("default_branch", marshal (Repo.DefaultBranch r));
           ("stargazers_count", marshal (Repo.Stars r));
           ("fork", marshal (Repo.IsFork r));
           ("archived", marshal (Repo.IsArchived r));
           ("topics", marshal (Repo.Topics r));
           ("html_url", marshal (Repo.HtmlURL r));
           ("clone_url", marshal (Repo.CloneURL r));
           ("ssh_url", marshal (Repo.SshURL r));
           ("license", marshal (Repo.License r)) ]
|}.

Module CreateReleaseRequestDecoding.
Import CreateReleaseRequest.

(** Assignments to one field of [CreateReleaseRequest]. *)
Definition set_TagName (v : string) (r : t) : t :=
  let '(Build_t _ b c d e f g) := r in Build_t v b c d e f g.
Definition set_Name (v : string) (r : t) : t :=
  let '(Build_t a _ c d e f g) := r in Build_t a v c d e f g.
Definition set_Body (v : string) (r : t) : t :=
  let '(Build_t a b _ d e f g) := r in Build_t a b v d e f g.
Definition set_Draft (v : bool) (r : t) : t :=
  let '(Build_t a b c _ e f g) := r in Build_t a b c v e f g.
Definition set_Prerelease (v : bool) (r : t) : t :=
  let '(Build_t a b c d _ f g) := r in Build_t a b c d v f g.
Definition set_GenerateReleaseNotes (v : bool) (r : t) : t :=
  let '(Build_t a b c d e _ g) := r in Build_t a b c d e v g.
Definition set_DiscussionCategoryName (v : string) (r : t) : t :=
  let '(Build_t a b c d e f _) := r in Build_t a b c d e f v.

(** The tags of the struct as the decoder reads them ([omitempty] plays
    no part in decoding). *)
Definition fields : list (fieldDecoder t) :=
  [ field "tag_name" TagName set_TagName;
    field "name" Name set_Name;
    field "body" Body set_Body;
    field "draft" Draft set_Draft;
    field "prerelease" Prerelease set_Prerelease;
    field "generate_release_notes" GenerateReleaseNotes set_GenerateReleaseNotes;
    field "discussion_category_name" DiscussionCategoryName
      set_DiscussionCategoryName ].
End CreateReleaseRequestDecoding.

#[export] Instance Unmarshal_CreateReleaseRequest : Unmarshal CreateReleaseRequest.t := {|
  zero := CreateReleaseRequest.Build_t "" "" "" false false false "";
  unmarshal := unmarshal_struct "CreateReleaseRequest"
                 CreateReleaseRequestDecoding.fields
|}.

(** ** Mock collaborators *)

Module Mock.

(** A token source that hands out the tokens "t0", "t1", ... of type
    "Bearer"; its state counts the calls. *)
Definition tokens : nat -> (oauth2Token * option error) * nat :=
  fun n =>
    (({| TokenType := "Bearer"; AccessToken := "t" +:+ pretty n |}, None),
     Datatypes.S n).

(** A token source that has expired. *)
Definition expired : nat -> (oauth2Token * option error) * nat :=
  fun n =>
    (({| TokenType := ""; AccessToken := "" |},
      Some (errorString "token expired")),
     Datatypes.S n).

(** A remote that answers every request with one status and body. *)
Definition remote (status : Z) (body : json) : http.RoundTripper :=
  fun _ => inl {| http.StatusCode := status; http.Body := Some body |}.

Definition config (source : nat -> (oauth2Token * option error) * nat)
    (rt : http.RoundTripper) : GitHubConfig.t nat :=
  {| GitHubConfig.Token := source;
     GitHubConfig.RetryTimeout := 0;
     GitHubConfig.HTTPTimeout := 0;
     GitHubConfig.InsecureSkipVerify := false;
     GitHubConfig.DebugHeaders := false;
     GitHubConfig.DebugTruncateBytes := 0;
     GitHubConfig.RateLimitPerSecond := 0;
     GitHubConfig.transport := rt |}.

(** Nothing asked of the token source, nothing sent. *)
Definition start : httpclient.World nat :=
  {| httpclient.source := 0%nat; httpclient.wire := [] |}.

(** The body of the [ListRepositories] scenario:
    one object with [name] x and [stargazers_count] 5. *)
Definition oneRepo : json :=
  JArr [JObj [("name", JStr "x"); ("stargazers_count", JNum 5)]].

(** Records of the other files are not needed by the mocks. *)
#[global] Instance Unmarshal_unit : Unmarshal unit := {|
  zero := tt;
  unmarshal _ cur := (cur, None)
|}.

#[global] Instance Marshal_unit : Marshal unit := {|
  marshal _ := JObj []
|}.

(** A store whose blobs are entries, or [None] for a damaged file. *)
#[global] Instance codec : localcache.Codec Repositories (option (localcache.Entry Repositories)) := {|
  localcache.encode e := Some e;
  localcache.decode b := b
|}.

Definition emptyStore : localcache.Store (option (localcache.Entry Repositories)) :=
  {| localcache.blobs := ∅; localcache.writable := true |}.

End Mock.

(** * Properties *)

(** ** The pipeline of a client built by [NewClient] *)

Section Pipeline.

Context {S : Type}.
Import httpclient.

(** With a token, [Do] stamps the request, sends it once and handles the
    answer. *)
Lemma Do_authorized {A} (c : GitHubConfig.t S) (method url : string)
    (data : option json) dec (target : A) (w : World S) tok s' :
  GitHubConfig.Token c (source w) = ((tok, None), s') ->
  Do (api (NewClient c)) method url data dec target w =
    let r := {| http.Method := method; http.URL := url;
                http.Headers := http.Set_ ∅ "Authorization"
                                  (TokenType tok +:+ " " +:+ AccessToken tok);
                http.Data := data |} in
    (receive dec target (GitHubConfig.transport c r),
     {| source := s'; wire := wire w ++ [r] |}).
Proof.
  intros Htok.
  unfold Do; cbn. unfold bind, ret, visit, authorize; cbn.
  rewrite Htok. reflexivity.
Qed.

(** Without a token, [Do] stops before the transport. *)
Lemma Do_unauthorized {A} (c : GitHubConfig.t S) (method url : string)
    (data : option json) dec (target : A) (w : World S) tok e s' :
  GitHubConfig.Token c (source w) = ((tok, Some e), s') ->
  Do (api (NewClient c)) method url data dec target w =
    ((target, Some (Errorf_w "token: " e)),
     {| source := s'; wire := wire w |}).
Proof.
  intros Htok.
  unfold Do; cbn. unfold bind, ret, visit, authorize; cbn.
  rewrite Htok. reflexivity.
Qed.

(** Whatever the token source does, [Do] sends at most one request, and
    that request has the method, URL and payload of the call. *)
Lemma Do_wire {A} (c : GitHubConfig.t S) (method url : string)
    (data : option json) dec (target : A) (w : World S) :
  wire (Do (api (NewClient c)) method url data dec target w).2 = wire w \/
  exists r,
    wire (Do (api (NewClient c)) method url data dec target w).2 = wire w ++ [r] /\
    http.Method r = method /\ http.URL r = url /\ http.Data r = data.
Proof.
  destruct (GitHubConfig.Token c (source w)) as [[tok [e|]] s'] eqn:Htok.
  - left. erewrite Do_unauthorized by eassumption. reflexivity.
  - right. erewrite Do_authorized by eassumption. cbn. eauto.
Qed.

(** C1: for every request a client built by [NewClient] sends, when the
    token source succeeds the request goes out with an Authorization
    header equal to the token type, a space and the access token of the
    token returned for that call. *)
Theorem authorization_header_is_token {A} (c : GitHubConfig.t S)
    (method url : string) (data : option json) dec (target : A)
    (w : World S) tok s' :
  GitHubConfig.Token c (source w) = ((tok, None), s') ->
  exists r,
    wire (Do (api (NewClient c)) method url data dec target w).2 = wire w ++ [r] /\
    http.Method r = method /\ http.URL r = url /\
    http.Headers r !! "Authorization" =
      Some [TokenType tok +:+ " " +:+ AccessToken tok] /\
    http.Get (http.Headers r) "Authorization" =
      TokenType tok +:+ " " +:+ AccessToken tok.
Proof.
  intros Htok. rewrite (Do_authorized _ _ _ _ _ _ _ _ _ Htok). cbn.
  eexists. split; [reflexivity|]. cbn.
  unfold http.Get, http.Set_. rewrite lookup_insert_eq. auto.
Qed.

(** C2: when the token source fails, the call ends with the error
    [fmt.Errorf("token: %w", err)], which wraps the source's error, and
    the wire is as it was: no request is dispatched. *)
Theorem token_failure_aborts {A} (c : GitHubConfig.t S)
    (method url : string) (data : option json) dec (target : A)
    (w : World S) tok e s' :
  GitHubConfig.Token c (source w) = ((tok, Some e), s') ->
  exists err w',
    Do (api (NewClient c)) method url data dec target w = ((target, Some err), w') /\
    Unwrap err = Some e /\
    Error err = "token: " +:+ Error e /\
    wire w' = wire w.
Proof.
  intros Htok. rewrite (Do_unauthorized _ _ _ _ _ _ _ _ _ _ Htok).
  eexists _, _. split; [reflexivity|]. cbn. auto.
Qed.

End Pipeline.

Lemma authorization_header_is_token_witness :
  GitHubConfig.Token (Mock.config Mock.tokens (Mock.remote 200 JNull))
    (httpclient.source Mock.start)
  = (({| TokenType := "Bearer"; AccessToken := "t0" |}, None), 1%nat) /\
  exists r,
    httpclient.wire
      (httpclient.Do (api (NewClient (Mock.config Mock.tokens (Mock.remote 200 JNull))))
         "GET" "https://api.github.com/repos/acme/widget" None None tt Mock.start).2
    = httpclient.wire Mock.start ++ [r] /\
    http.Method r = "GET" /\
    http.URL r = "https://api.github.com/repos/acme/widget" /\
    http.Headers r !! "Authorization" = Some ["Bearer" +:+ " " +:+ "t0"] /\
    http.Get (http.Headers r) "Authorization" = "Bearer" +:+ " " +:+ "t0".
Proof.
  split; [reflexivity|].
  apply (authorization_header_is_token
           (Mock.config Mock.tokens (Mock.remote 200 JNull))
           "GET" "https://api.github.com/repos/acme/widget" None None tt
           Mock.start {| TokenType := "Bearer"; AccessToken := "t0" |} 1%nat).
  reflexivity.
Defined.

Lemma token_failure_aborts_witness :
  GitHubConfig.Token (Mock.config Mock.expired (Mock.remote 200 JNull))
    (httpclient.source Mock.start)
  = (({| TokenType := ""; AccessToken := "" |},
      Some (errorString "token expired")), 1%nat) /\
  exists err w',
    httpclient.Do (api (NewClient (Mock.config Mock.expired (Mock.remote 200 JNull))))
      "GET" "https://api.github.com/repos/acme/widget" None None tt Mock.start
    = ((tt, Some err), w') /\
    Unwrap err = Some (errorString "token expired") /\
    Error err = "token: " +:+ Error (errorString "token expired") /\
    httpclient.wire w' = httpclient.wire Mock.start.
Proof.
  split; [reflexivity|].
  apply (token_failure_aborts
           (Mock.config Mock.expired (Mock.remote 200 JNull))
           "GET" "https://api.github.com/repos/acme/widget" None None tt
           Mock.start {| TokenType := ""; AccessToken := "" |}
           (errorString "token expired") 1%nat).
  reflexivity.
Defined.

(** ** The typed operations *)

Section OperationFacts.

Context {S : Type}.
Context {Release RepositoryCommit PullRequest NewPullRequest : Type}.
Context `{!Unmarshal Release, !Unmarshal RepositoryCommit,
          !Unmarshal PullRequest, !Marshal NewPullRequest}.
Import httpclient.

(** The only key the decoder of the comparison keeps is "commits", in
    any letter case. *)
Lemma findField_commits
    (f := field "commits" (@Commits RepositoryCommit)
            (fun v _ => {| Commits := v |})) k :
  findField [f] k = if equalFold "commits" k then Some f.2 else None.
Proof.
  unfold findField, f; cbn.
  destruct (bool_decide ("commits" = k)) eqn:Hk.
  - apply bool_decide_eq_true in Hk. subst k. reflexivity.
  - destruct (equalFold "commits" k); reflexivity.
Qed.

(** Members of the comparison under any other key do not reach the
    result. *)
Lemma unmarshal_compareResponse_filter ms (cur : @compareResponse RepositoryCommit) :
  unmarshal (JObj ms) cur =
  unmarshal (JObj (List.filter (fun m => equalFold "commits" m.1) ms)) cur.
Proof.
  cbn. revert cur. induction ms as [|[k v] ms IH]; intros cur; [reflexivity|].
  cbn [List.filter unmarshal_members fst].
  rewrite findField_commits.
  destruct (equalFold "commits" k) eqn:Hk.
  - cbn [unmarshal_members]. rewrite findField_commits, Hk.
    cbn [snd field]. destruct (unmarshal v (Commits cur)) as [b e].
    rewrite IH. reflexivity.
  - apply IH.
Qed.

(** C6: [CompareCommits] sends at most one request, a GET of
    /repos/{org}/{repo}/compare/{base}...{head} under the API root with
    no payload, and returns the [Commits] field of the decoded
    comparison together with the error of the pipeline; members of the
    comparison other than "commits" do not reach the decoded value. *)
Theorem CompareCommits_returns_commits (c : GitHubConfig.t S)
    (org repo base head : string) (w : World S) :
  let path := "https://api.github.com" +:+ "/repos/" +:+ org +:+ "/" +:+ repo +:+
              "/compare/" +:+ base +:+ "..." +:+ head in
  exists (response : @compareResponse RepositoryCommit) err w',
    Do (api (NewClient c)) "GET" path None WithResponseUnmarshal zero w
      = ((response, err), w') /\
    CompareCommits (NewClient c) org repo base head w
      = ((Commits response, err), w') /\
    (wire w' = wire w \/
     exists r, wire w' = wire w ++ [r] /\ http.Method r = "GET" /\
               http.URL r = path /\ http.Data r = None) /\
    forall ms (cur : @compareResponse RepositoryCommit),
      unmarshal (JObj ms) cur =
      unmarshal (JObj (List.filter (fun m => equalFold "commits" m.1) ms)) cur.
Proof.
  intros path.
  pose proof (Do_wire c "GET" path None WithResponseUnmarshal
                (zero : @compareResponse RepositoryCommit) w) as Hwire.
  unfold CompareCommits, gitHubAPI, bind, ret. fold path.
  destruct (Do (api (NewClient c)) "GET" path None WithResponseUnmarshal zero w)
    as [[response err] w'].
  exists response, err, w'. repeat split; try reflexivity.
  - exact Hwire.
  - apply unmarshal_compareResponse_filter.
Qed.

(** The scenario's body decodes to one repository named x with 5 stars. *)
Lemma unmarshal_oneRepo :
  unmarshal Mock.oneRepo (zero : Repositories) =
    ([Repo.set_Stars 5 (Repo.set_Name "x" zero)], None).
Proof. reflexivity. Qed.

(** C7: [ListRepositories] sends a GET of /users/{org}/repos under the
    API root, and when the remote answers with a 2xx status and the body
    [[{"name":"x","stargazers_count":5}]] it returns, with no error, a
    slice of length 1 whose element has [Name] x and [Stars] 5. *)
Theorem ListRepositories_scenario (c : GitHubConfig.t S) (org : string)
    (w : World S) tok s' (status : Z) :
  GitHubConfig.Token c (source w) = ((tok, None), s') ->
  is2xx status = true ->
  (forall r, GitHubConfig.transport c r =
     inl {| http.StatusCode := status;
            http.Body := Some (JArr [JObj [("name", JStr "x");
                                           ("stargazers_count", JNum 5)]]) |}) ->
  exists repo r w',
    ListRepositories (NewClient c) org w = (([repo], None), w') /\
    length [repo] = 1%nat /\
    Repo.Name repo = "x" /\ Repo.Stars repo = 5 /\
    wire w' = wire w ++ [r] /\
    http.Method r = "GET" /\
    http.URL r = "https://api.github.com" +:+ "/users/" +:+ org +:+ "/repos".
Proof.
  intros Htok Hst Hrt.
  unfold ListRepositories, gitHubAPI, bind, ret.
  rewrite (Do_authorized _ _ _ _ _ _ _ _ _ Htok). cbn zeta.
  rewrite Hrt. unfold receive. cbn [http.StatusCode http.Body].
  rewrite Hst. unfold WithResponseUnmarshal.
  change (JArr [JObj [("name", JStr "x"); ("stargazers_count", JNum 5)]])
    with Mock.oneRepo.
  rewrite unmarshal_oneRepo.
  eexists _, _, _. split; [reflexivity|]. cbn. auto 10.
Qed.

(** C8: when the remote answers [GetRepo] with a status outside 2xx, the
    operation returns an API error carrying that status (and the body),
    and the returned [Repo] is the zero value: the body was not decoded
    into it. *)
Theorem GetRepo_api_error (c : GitHubConfig.t S) (org name : string)
    (w : World S) tok s' (resp : http.Response) :
  GitHubConfig.Token c (source w) = ((tok, None), s') ->
  (forall r, GitHubConfig.transport c r = inl resp) ->
  is2xx (http.StatusCode resp) = false ->
  exists w',
    GetRepo (NewClient c) org name w =
      ((zero, Some (APIError (http.StatusCode resp) (http.Body resp))), w') /\
    source w' = s' /\
    exists r, wire w' = wire w ++ [r] /\ http.Method r = "GET" /\
      http.URL r = "https://api.github.com" +:+ "/repos/" +:+ org +:+ "/" +:+ name.
Proof.
  intros Htok Hrt Hst.
  unfold GetRepo, gitHubAPI, bind, ret.
  rewrite (Do_authorized _ _ _ _ _ _ _ _ _ Htok). cbn zeta.
  rewrite Hrt. unfold receive. rewrite Hst.
  eexists. split; [reflexivity|]. cbn. eauto 10.
Qed.

(** C9: when the pipeline returns an error, [CreatePullRequest] returns
    the nil pointer with it, while [CreateRelease] and [GetPullRequest]
    return with it a pointer to their result variable. *)
Theorem error_path_pointers (c : GitHubClient S) (org repo : string)
    (body : NewPullRequest) (req : CreateReleaseRequest.t) (number : Z)
    (w : World S) e1 e2 e3 :
  (CreatePullRequest c org repo body w).1.2 = Some e1 ->
  (@CreateRelease S Release _ c org repo req w).1.2 = Some e2 ->
  (@GetPullRequest S PullRequest _ c org repo number w).1.2 = Some e3 ->
  (@CreatePullRequest S PullRequest _ _ _ c org repo body w).1.1 = None /\
  (exists res, (@CreateRelease S Release _ c org repo req w).1.1 = Some res) /\
  (exists res, (@GetPullRequest S PullRequest _ c org repo number w).1.1 = Some res).
Proof.
  unfold CreatePullRequest, CreateRelease, GetPullRequest, bind, ret.
  repeat match goal with
         | |- context [Do ?a ?m ?u ?d ?dec ?t ?w] =>
             destruct (Do a m u d dec t w) as [[? [?|]] ?]
         end; cbn; intros H1 H2 H3; try discriminate; eauto.
Qed.

End OperationFacts.

Lemma ListRepositories_scenario_witness :
  let c := Mock.config Mock.tokens (Mock.remote 200 Mock.oneRepo) in
  (GitHubConfig.Token c (httpclient.source Mock.start)
   = (({| TokenType := "Bearer"; AccessToken := "t0" |}, None), 1%nat) /\
   httpclient.is2xx 200 = true /\
   forall r, GitHubConfig.transport c r =
     inl {| http.StatusCode := 200;
            http.Body := Some (JArr [JObj [("name", JStr "x");
                                           ("stargazers_count", JNum 5)]]) |}) /\
  exists repo r w',
    ListRepositories (NewClient c) "acme" Mock.start = (([repo], None), w') /\
    length [repo] = 1%nat /\
    Repo.Name repo = "x" /\ Repo.Stars repo = 5 /\
    httpclient.wire w' = httpclient.wire Mock.start ++ [r] /\
    http.Method r = "GET" /\
    http.URL r = "https://api.github.com" +:+ "/users/" +:+ "acme" +:+ "/repos".
Proof.
  intros c. split; [repeat split|].
  apply (ListRepositories_scenario c "acme" Mock.start
           {| TokenType := "Bearer"; AccessToken := "t0" |} 1%nat 200).
  - reflexivity.
  - reflexivity.
  - intros r. reflexivity.
Defined.

Lemma GetRepo_api_error_witness :
  let c := Mock.config Mock.tokens (Mock.remote 403 (JObj [("message", JStr "Forbidden")])) in
  let resp := {| http.StatusCode := 403;
                 http.Body := Some (JObj [("message", JStr "Forbidden")]) |} in
  (GitHubConfig.Token c (httpclient.source Mock.start)
   = (({| TokenType := "Bearer"; AccessToken := "t0" |}, None), 1%nat) /\
   (forall r, GitHubConfig.transport c r = inl resp) /\
   httpclient.is2xx (http.StatusCode resp) = false) /\
  exists w',
    GetRepo (NewClient c) "acme" "widget" Mock.start =
      ((zero, Some (APIError (http.StatusCode resp) (http.Body resp))), w') /\
    httpclient.source w' = 1%nat /\
    exists r, httpclient.wire w' = httpclient.wire Mock.start ++ [r] /\
      http.Method r = "GET" /\
      http.URL r = "https://api.github.com" +:+ "/repos/" +:+ "acme" +:+ "/" +:+ "widget".
Proof.
  intros c resp. split; [repeat split|].
  apply (GetRepo_api_error c "acme" "widget" Mock.start
           {| TokenType := "Bearer"; AccessToken := "t0" |} 1%nat resp).
  - reflexivity.
  - intros r. reflexivity.
  - reflexivity.
Defined.

Lemma error_path_pointers_witness :
  let c := NewClient (Mock.config Mock.expired (Mock.remote 200 JNull)) in
  let e := Errorf_w "token: " (errorString "token expired") in
  let req := {| CreateReleaseRequest.TagName := "v1.0";
                CreateReleaseRequest.Name := "";
                CreateReleaseRequest.Body := "";
                CreateReleaseRequest.Draft := false;
                CreateReleaseRequest.Prerelease := false;
                CreateReleaseRequest.GenerateReleaseNotes := false;
                CreateReleaseRequest.DiscussionCategoryName := "" |} in
  ((@CreatePullRequest nat unit _ unit _ c "acme" "widget" tt Mock.start).1.2 = Some e /\
   (@CreateRelease nat unit _ c "acme" "widget" req Mock.start).1.2 = Some e /\
   (@GetPullRequest nat unit _ c "acme" "widget" 7 Mock.start).1.2 = Some e) /\
  (@CreatePullRequest nat unit _ unit _ c "acme" "widget" tt Mock.start).1.1 = None /\
  (exists res, (@CreateRelease nat unit _ c "acme" "widget" req Mock.start).1.1 = Some res) /\
  (exists res, (@GetPullRequest nat unit _ c "acme" "widget" 7 Mock.start).1.1 = Some res).
Proof.
  intros c e req. split; [repeat split|].
  apply (error_path_pointers (Release := unit) (PullRequest := unit)
           (NewPullRequest := unit)
           c "acme" "widget" tt req 7 Mock.start e e e); reflexivity.
Defined.

(** ** The payload of [CreateRelease] *)

Section ReleasePayload.

Context {S Release : Type} `{!Unmarshal Release}.
Import httpclient.

(** [CreateRelease] sends the encoding of its request as the payload. *)
Lemma CreateRelease_wire (c : GitHubConfig.t S) (org repo : string)
    (req : CreateReleaseRequest.t) (w : World S) :
  wire (@CreateRelease S Release _ (NewClient c) org repo req w).2 = wire w \/
  exists r,
    wire (@CreateRelease S Release _ (NewClient c) org repo req w).2 = wire w ++ [r] /\
    http.Method r = "POST" /\
    http.Data r = Some (JObj (CreateReleaseRequest.members req)).
Proof.
  unfold CreateRelease, bind, ret.
  match goal with
  | |- context [Do ?a ?m ?u ?d ?dec ?t w] =>
      pose proof (Do_wire c m u d dec t w) as Hwire;
      destruct (Do a m u d dec t w) as [[res err] w']
  end.
  cbn in *. destruct Hwire as [Hw | (r & Hw & Hm & _ & Hd)]; [left; exact Hw|].
  right. exists r. auto.
Qed.

(** C10: every field of [CreateReleaseRequest] is encoded with
    [omitempty]: a field is a member of the payload exactly when it is
    not its zero value, so no member is the empty string or [false], and
    this is the payload [CreateRelease] puts on the wire; "draft" and
    "prerelease" are therefore never sent as [false]. *)
Theorem CreateReleaseRequest_omits_zero_values (c : GitHubConfig.t S)
    (org repo : string) (req : CreateReleaseRequest.t) (w : World S) :
  let ms := CreateReleaseRequest.members req in
  member "tag_name" ms =
    (if decide (CreateReleaseRequest.TagName req = "") then None
     else Some (JStr (CreateReleaseRequest.TagName req))) /\
  member "name" ms =
    (if decide (CreateReleaseRequest.Name req = "") then None
     else Some (JStr (CreateReleaseRequest.Name req))) /\
  member "body" ms =
    (if decide (CreateReleaseRequest.Body req = "") then None
     else Some (JStr (CreateReleaseRequest.Body req))) /\
  member "draft" ms =
    (if CreateReleaseRequest.Draft req then Some (JBool true) else None) /\
  member "prerelease" ms =
    (if CreateReleaseRequest.Prerelease req then Some (JBool true) else None) /\
  member "generate_release_notes" ms =
    (if CreateReleaseRequest.GenerateReleaseNotes req then Some (JBool true)
     else None) /\
  member "discussion_category_name" ms =
    (if decide (CreateReleaseRequest.DiscussionCategoryName req = "") then None
     else Some (JStr (CreateReleaseRequest.DiscussionCategoryName req))) /\
  Forall (fun m => m.2 <> JStr "" /\ m.2 <> JBool false) ms /\
  member "draft" ms <> Some (JBool false) /\
  member "prerelease" ms <> Some (JBool false) /\
  (wire (@CreateRelease S Release _ (NewClient c) org repo req w).2 = wire w \/
   exists r,
     wire (@CreateRelease S Release _ (NewClient c) org repo req w).2 = wire w ++ [r] /\
     http.Method r = "POST" /\ http.Data r = Some (JObj ms)).
Proof.
  intros ms.
  assert (Hwire := CreateRelease_wire c org repo req w).
  repeat (split; [|]); try exact Hwire; subst ms;
    destruct req as [tag nm bd dr pr gen disc];
    unfold CreateReleaseRequest.members, omitempty_string, omitempty_bool;
    cbn [CreateReleaseRequest.TagName CreateReleaseRequest.Name
         CreateReleaseRequest.Body CreateReleaseRequest.Draft
         CreateReleaseRequest.Prerelease
         CreateReleaseRequest.GenerateReleaseNotes
         CreateReleaseRequest.DiscussionCategoryName];
    repeat case_decide; destruct dr, pr, gen;
    try reflexivity; try discriminate;
    cbn [app]; repeat constructor; cbn; congruence.
Qed.

End ReleasePayload.

(** ** The key of the repository cache *)

Lemma list_ascii_of_string_app (a b : string) :
  String.list_ascii_of_string (a +:+ b) =
  String.list_ascii_of_string a ++ String.list_ascii_of_string b.
Proof.
  induction a as [|ch a IH]; [reflexivity|].
  change (String ch a +:+ b) with (String ch (a +:+ b)).
  cbn [String.list_ascii_of_string]. rewrite IH. reflexivity.
Qed.

(** Two strings with the same suffix appended are equal only if they
    are the same string. *)
Lemma append_inj_suffix (a b s : string) : a +:+ s = b +:+ s -> a = b.
Proof.
  intros H. apply (f_equal String.list_ascii_of_string) in H.
  rewrite !list_ascii_of_string_app in H.
  apply app_inv_tail in H.
  rewrite <- (String.string_of_list_ascii_of_string a),
          <- (String.string_of_list_ascii_of_string b).
  congruence.
Qed.

(** C4, as the code has it: the key of the cache built for an
    organization is the organization followed by the fixed suffix
    "-repositories", and two organizations have the same key only if
    they are the same, so each has a slot of its own. *)
Theorem cache_key_is_scope_then_suffix {S} (cl : GitHubClient S)
    (org org' cacheDir : string) :
  localcache.name (cache (NewRepositoryCache cl org cacheDir))
    = org +:+ "-repositories" /\
  (localcache.name (cache (NewRepositoryCache cl org cacheDir))
   = localcache.name (cache (NewRepositoryCache cl org' cacheDir))
   <-> org = org').
Proof.
  split; [reflexivity|]. cbn. split.
  - apply append_inj_suffix.
  - intros ->. reflexivity.
Qed.

(** C4, as the claim has it, fails: the key of the organization "acme"
    is "acme-repositories", which is no prefix followed by "-acme". *)
Lemma cache_key_is_not_prefix_then_scope :
  ~ exists prefix : string,
      localcache.name
        (cache (NewRepositoryCache
                  (NewClient (Mock.config Mock.tokens (Mock.remote 200 JNull)))
                  "acme" "/var/cache"))
      = prefix +:+ "-" +:+ "acme".
Proof.
  intros [p H]. cbn in H. change ("-" +:+ "acme") with "-acme" in H.
  change ("acme" +:+ "-repositories") with "acme-repositories" in H.
  repeat (destruct p as [|? p];
          [ discriminate H
          | change (String ?c p +:+ "-acme") with (String c (p +:+ "-acme")) in H;
            try discriminate H; injection H as _ H ]).
Qed.

(** ** The TTL cache *)

Section CacheFacts.

Context {T Blob : Type} `{!localcache.Codec T Blob}.
Import localcache.

(** A recompute that succeeded leaves an entry that a load less than
    [validity] later answers from, whatever its [computeFn]. *)
Lemma refresh_then_hit {W} (c : LocalCache T)
    (f g : W -> (T * option error) * W) st w (t0 t1 : Z) v st1 w1 :
  (forall e, decode (encode e) = Some e) ->
  refresh c t0 f (st, w) = ((v, None), (st1, w1)) ->
  t1 - t0 < validity c ->
  Load c t1 g (st1, w1) = ((v, None), (st1, w1)).
Proof.
  intros Hcodec Hrefresh Httl. unfold refresh in Hrefresh.
  destruct (f w) as [[v0 [err|]] w0]; [discriminate|].
  unfold put in Hrefresh. destruct (writable st) eqn:Hw; [|discriminate].
  injection Hrefresh as -> <- ->.
  unfold Load, get; cbn [blobs].
  rewrite lookup_insert_eq. cbn [mbind option_bind]. rewrite Hcodec.
  unfold fresh; cbn [fetchedAt value].
  destruct (Z.ltb_spec (t1 - t0) (validity c)); [reflexivity|lia].
Qed.

(** A load either answers from the store and touches nothing, or is a
    recompute. *)
Lemma Load_cases {W} (c : LocalCache T) (now : Z)
    (f : W -> (T * option error) * W) st w :
  (exists v, Load c now f (st, w) = ((v, None), (st, w))) \/
  Load c now f (st, w) = refresh c now f (st, w).
Proof.
  unfold Load.
  destruct (get st (name c) ≫= decode) as [e|]; [|right; reflexivity].
  destruct (fresh c now e); [left; eauto | right; reflexivity].
Qed.

(** After a load that called [computeFn] once and succeeded, a load
    less than [validity] later answers from the store. *)
Lemma Load_hit_after_refresh {W} (c : LocalCache T)
    (f g : W -> (T * option error) * W) st w (n : nat) (t0 t1 : Z) v st1 w1 :
  (forall e, decode (encode e) = Some e) ->
  Load c t0 (counted f) (st, (w, n)) = ((v, None), (st1, (w1, Datatypes.S n))) ->
  t1 - t0 < validity c ->
  Load c t1 (counted g) (st1, (w1, Datatypes.S n))
    = ((v, None), (st1, (w1, Datatypes.S n))).
Proof.
  intros Hcodec Hload Httl.
  destruct (Load_cases c t0 (counted f) st (w, n)) as [[v0 Hhit] | Hrefresh].
  - rewrite Hhit in Hload. injection Hload as _ _ _ Hn. lia.
  - rewrite Hrefresh in Hload. eapply refresh_then_hit; eauto.
Qed.

(** With no entry under the key and a failing [computeFn], the load is
    the failure and the store is untouched. *)
Lemma Load_absent_error {W} (c : LocalCache T) (now : Z)
    (computeFn : W -> (T * option error) * W) (st : Store Blob) (w : W)
    v e w' :
  get st (name c) = None ->
  computeFn w = ((v, Some e), w') ->
  Load c now computeFn (st, w) = ((v, Some e), (st, w')) /\
  get st (name c) = None.
Proof.
  intros Habsent Hfail.
  unfold Load. rewrite Habsent. cbn [mbind option_bind].
  unfold refresh. rewrite Hfail. auto.
Qed.

(** C5: when the store has no entry under the key and [computeFn]
    returns an error, [Load] returns that error and the store is as it
    was, still with no entry under the key. *)
Theorem Load_absent_error_leaves_store {W} (c : LocalCache T) (now : Z)
    (computeFn : W -> (T * option error) * W) (st : Store Blob) (w : W)
    v e w' :
  get st (name c) = None ->
  computeFn w = ((v, Some e), w') ->
  exists st',
    Load c now computeFn (st, w) = ((v, Some e), (st', w')) /\
    st' = st /\ get st' (name c) = None.
Proof.
  intros Habsent Hfail. exists st.
  destruct (Load_absent_error c now computeFn st w v e w'
              Habsent Hfail) as [Hload Hget].
  auto.
Qed.

End CacheFacts.

(** C3: for the cache of any organization, after a load at time [t0]
    that called [computeFn] (the call counter went up by one) and
    succeeded, a load at a time [t1] with [t1 - t0] below the TTL of 24
    hours returns the same value with no error, and leaves the store
    and the call counter as they were: [computeFn] is not called. *)
Theorem repository_cache_hit_within_ttl {S Blob W : Type}
    `{!localcache.Codec Repositories Blob}
    (cl : GitHubClient S) (org cacheDir : string)
    (f g : W -> (Repositories * option error) * W)
    st w (n : nat) (t0 t1 : Z) v st1 w1 :
  (forall e, localcache.decode (localcache.encode e) = Some e) ->
  localcache.Load (cache (NewRepositoryCache cl org cacheDir)) t0
    (localcache.counted f) (st, (w, n))
    = ((v, None), (st1, (w1, Datatypes.S n))) ->
  t1 - t0 < 24 * (3600 * 1000000000) ->
  repositoryCacheTTL = 24 * (3600 * 1000000000) /\
  localcache.Load (cache (NewRepositoryCache cl org cacheDir)) t1
    (localcache.counted g) (st1, (w1, Datatypes.S n))
    = ((v, None), (st1, (w1, Datatypes.S n))).
Proof.
  intros Hcodec Hload Httl. split; [reflexivity|].
  eapply Load_hit_after_refresh; eauto.
Qed.

(** ** [repositoryCache.Load] *)

Section RepositoryCacheFacts.

Context {S Blob : Type} `{!localcache.Codec Repositories Blob}.

(** With no entry for the organization and a failing listing, the load
    of the repository cache returns the listing's error and writes
    nothing. *)
Lemma repositoryCache_Load_absent_error (r : repositoryCache S) (now : Z)
    (st : localcache.Store Blob) (w : httpclient.World S) v e w' :
  localcache.get st (localcache.name (cache r)) = None ->
  ListRepositories (client r) (Org r) w = ((v, Some e), w') ->
  Load r now (st, w) = ((v, Some e), (st, w')).
Proof.
  intros Habsent Hfail. unfold Load.
  destruct (Load_absent_error (cache r) now
              (fun w => ListRepositories (client r) (Org r) w) st w v e w'
              Habsent Hfail) as [-> _].
  reflexivity.
Qed.

(** After a load of the repository cache that put a request on the wire
    and succeeded, a load less than the TTL later returns the same
    repositories, asks for no token and sends nothing. *)
Lemma repositoryCache_Load_hit (r : repositoryCache S) (t0 t1 : Z)
    (st st1 : localcache.Store Blob) (w w1 : httpclient.World S) v req :
  (forall e, localcache.decode (localcache.encode e) = Some e) ->
  Load r t0 (st, w) = ((v, None), (st1, w1)) ->
  httpclient.wire w1 = httpclient.wire w ++ [req] ->
  t1 - t0 < localcache.validity (cache r) ->
  Load r t1 (st1, w1) = ((v, None), (st1, w1)).
Proof.
  intros Hcodec Hload Hwire Httl. unfold Load in *.
  destruct (Load_cases (cache r) t0
              (fun w => ListRepositories (client r) (Org r) w) st w)
    as [[v0 Hhit] | Hrefresh].
  - rewrite Hhit in Hload. injection Hload as _ _ <-.
    apply (f_equal length) in Hwire. rewrite length_app in Hwire.
    cbn in Hwire. lia.
  - rewrite Hrefresh in Hload. eapply refresh_then_hit; eauto.
Qed.

End RepositoryCacheFacts.

Lemma Load_absent_error_leaves_store_witness :
  let cl := NewClient (Mock.config Mock.expired (Mock.remote 200 Mock.oneRepo)) in
  let c := cache (NewRepositoryCache cl "acme" "/var/cache") in
  let e := Errorf_w "token: " (errorString "token expired") in
  let w' := {| httpclient.source := 1%nat; httpclient.wire := [] |} in
  (localcache.get Mock.emptyStore (localcache.name c) = None /\
   ListRepositories cl "acme" Mock.start = (([], Some e), w')) /\
  exists st',
    localcache.Load c 1000 (ListRepositories cl "acme") (Mock.emptyStore, Mock.start)
      = (([], Some e), (st', w')) /\
    st' = Mock.emptyStore /\ localcache.get st' (localcache.name c) = None.
Proof.
  intros cl c e w'. split; [split; reflexivity|].
  apply (Load_absent_error_leaves_store c 1000 (ListRepositories cl "acme")
           Mock.emptyStore Mock.start [] e w'); reflexivity.
Defined.

Lemma repository_cache_hit_within_ttl_witness :
  let cl := NewClient (Mock.config Mock.tokens (Mock.remote 200 Mock.oneRepo)) in
  let c := cache (NewRepositoryCache cl "acme" "/var/cache") in
  let f := ListRepositories cl "acme" in
  let v := [Repo.set_Stars 5 (Repo.set_Name "x" zero)] in
  let first := localcache.Load c 1000 (localcache.counted f)
                 (Mock.emptyStore, (Mock.start, 0%nat)) in
  let st1 := first.2.1 in
  let w1 := first.2.2.1 in
  let hour := 3600 * 1000000000 in
  ((forall e : localcache.Entry Repositories,
      localcache.decode (localcache.encode e) = Some e) /\
   first = ((v, None), (st1, (w1, 1%nat))) /\
   (1000 + hour) - 1000 < 24 * (3600 * 1000000000)) /\
  repositoryCacheTTL = 24 * (3600 * 1000000000) /\
  localcache.Load c (1000 + hour) (localcache.counted f) (st1, (w1, 1%nat))
    = ((v, None), (st1, (w1, 1%nat))).
Proof.
  intros cl c f v first st1 w1 hour.
  split; [split; [|split]; [intros e; reflexivity | reflexivity | reflexivity]|].
  apply (repository_cache_hit_within_ttl cl "acme" "/var/cache" f f
           Mock.emptyStore Mock.start 0%nat 1000 (1000 + hour) v st1 w1).
  - intros e. reflexivity.
  - reflexivity.
  - reflexivity.
Defined.

(** * Further properties of the client *)

Section VisitorFacts.

Context {S : Type}.
Import httpclient.

(** The visitor of [NewClient], given a token, changes nothing of the
    request but the Authorization header: method, URL and payload stay,
    every other header keeps its values, and Authorization holds the one
    value built from the token, whatever it held before. *)
Theorem authorize_sets_only_authorization (c : GitHubConfig.t S)
    (r : http.Request) (s : S) tok s' :
  GitHubConfig.Token c s = ((tok, None), s') ->
  exists r',
    authorize c r s = ((r', None), s') /\
    http.Method r' = http.Method r /\
    http.URL r' = http.URL r /\
    http.Data r' = http.Data r /\
    http.Headers r' !! "Authorization"
      = Some [TokenType tok +:+ " " +:+ AccessToken tok] /\
    forall k, k <> "Authorization" ->
      http.Headers r' !! k = http.Headers r !! k.
Proof.
  intros Htok. unfold authorize. rewrite Htok.
  eexists. split; [reflexivity|]. cbn. repeat split.
  - unfold http.Set_. apply lookup_insert_eq.
  - intros k Hk. unfold http.Set_. apply lookup_insert_ne. congruence.
Qed.

(** Every call of [Do] asks the token source exactly once, whether the
    source answers with a token or with an error. *)
Lemma Do_asks_one_token {A} (c : GitHubConfig.t S) (method url : string)
    (data : option json) dec (target : A) (w : World S) :
  source (Do (api (NewClient c)) method url data dec target w).2
    = (GitHubConfig.Token c (source w)).2.
Proof.
  destruct (GitHubConfig.Token c (source w)) as [[tok [e|]] s'] eqn:Htok.
  - erewrite Do_unauthorized by eassumption. reflexivity.
  - erewrite Do_authorized by eassumption. reflexivity.
Qed.

(** The pipeline keeps no token: two calls in a row ask the source
    twice, and each request carries the token of its own call. *)
Theorem consecutive_calls_use_their_own_tokens {A B} (c : GitHubConfig.t S)
    (m1 u1 m2 u2 : string) (d1 d2 : option json) dec1 dec2
    (t1 : A) (t2 : B) (w : World S) tok1 tok2 s1 s2 :
  GitHubConfig.Token c (source w) = ((tok1, None), s1) ->
  GitHubConfig.Token c s1 = ((tok2, None), s2) ->
  exists r1 r2,
    let w1 := (Do (api (NewClient c)) m1 u1 d1 dec1 t1 w).2 in
    let w2 := (Do (api (NewClient c)) m2 u2 d2 dec2 t2 w1).2 in
    wire w2 = wire w ++ [r1; r2] /\
    source w2 = s2 /\
    http.Get (http.Headers r1) "Authorization"
      = TokenType tok1 +:+ " " +:+ AccessToken tok1 /\
    http.Get (http.Headers r2) "Authorization"
      = TokenType tok2 +:+ " " +:+ AccessToken tok2.
Proof.
  intros H1 H2.
  rewrite (Do_authorized _ _ _ _ _ _ _ _ _ H1). cbn zeta. cbn [snd].
  rewrite (Do_authorized c m2 u2 d2 dec2 t2
             {| source := s1; wire := wire w ++ [_] |} tok2 s2 H2).
  cbn zeta. cbn [snd].
  eexists _, _. cbn [wire source]. rewrite <- app_assoc. cbn [app].
  split; [reflexivity|]. split; [reflexivity|].
  unfold http.Get, http.Set_; cbn [http.Headers].
  rewrite !lookup_insert_eq. auto.
Qed.

End VisitorFacts.

Lemma authorize_sets_only_authorization_witness :
  let c := Mock.config Mock.tokens (Mock.remote 200 JNull) in
  let r := {| http.Method := "GET"; http.URL := "https://api.github.com/x";
              http.Headers := {[ "Authorization" := ["Basic old"; "stale"];
                                 "Accept" := ["application/json"] ]};
              http.Data := None |} in
  GitHubConfig.Token c 0%nat
    = (({| TokenType := "Bearer"; AccessToken := "t0" |}, None), 1%nat) /\
  exists r',
    authorize c r 0%nat = ((r', None), 1%nat) /\
    http.Method r' = http.Method r /\
    http.URL r' = http.URL r /\
    http.Data r' = http.Data r /\
    http.Headers r' !! "Authorization" = Some ["Bearer" +:+ " " +:+ "t0"] /\
    forall k, k <> "Authorization" ->
      http.Headers r' !! k = http.Headers r !! k.
Proof.
  intros c r. split; [reflexivity|].
  apply (authorize_sets_only_authorization c r 0%nat
           {| TokenType := "Bearer"; AccessToken := "t0" |} 1%nat).
  reflexivity.
Defined.

Lemma consecutive_calls_use_their_own_tokens_witness :
  let c := Mock.config Mock.tokens (Mock.remote 200 JNull) in
  (GitHubConfig.Token c (httpclient.source Mock.start)
     = (({| TokenType := "Bearer"; AccessToken := "t0" |}, None), 1%nat) /\
   GitHubConfig.Token c 1%nat
     = (({| TokenType := "Bearer"; AccessToken := "t1" |}, None), 2%nat)) /\
  exists r1 r2,
    let w1 := (httpclient.Do (api (NewClient c)) "GET" "a" None None tt Mock.start).2 in
    let w2 := (httpclient.Do (api (NewClient c)) "PATCH" "b" None None tt w1).2 in
    httpclient.wire w2 = httpclient.wire Mock.start ++ [r1; r2] /\
    httpclient.source w2 = 2%nat /\
    http.Get (http.Headers r1) "Authorization" = "Bearer" +:+ " " +:+ "t0" /\
    http.Get (http.Headers r2) "Authorization" = "Bearer" +:+ " " +:+ "t1".
Proof.
  intros c. split; [split; reflexivity|].
  apply (consecutive_calls_use_their_own_tokens c "GET" "a" "PATCH" "b"
           None None None None tt tt Mock.start
           {| TokenType := "Bearer"; AccessToken := "t0" |}
           {| TokenType := "Bearer"; AccessToken := "t1" |} 1%nat 2%nat);
    reflexivity.
Defined.

Lemma append_assoc (a b c : string) : (a +:+ b) +:+ c = a +:+ (b +:+ c).
Proof.
  induction a as [|ch a IH]; [reflexivity|].
  change (String ch a +:+ b) with (String ch (a +:+ b)).
  change (String ch (a +:+ b) +:+ c) with (String ch ((a +:+ b) +:+ c)).
  rewrite IH. reflexivity.
Qed.

Section EndpointFacts.

Context {S : Type}.
Context {Versions Release workflowRun RepositoryCommit PullRequest : Type}.
Context `{!Unmarshal Versions, !Unmarshal Release, !Unmarshal workflowRun,
          !Unmarshal RepositoryCommit, !Unmarshal PullRequest}.
Context {PullRequestListOptions PullRequestUpdate NewPullRequest : Type}.
Context `{!Marshal PullRequestListOptions, !Marshal PullRequestUpdate,
          !Marshal NewPullRequest}.
Import httpclient.

(** With a token, run the one [Do] of an operation and name what the
    answer is made into. *)
Ltac run_authorized Htok :=
  unfold Versions_, CreateRelease, GetRepo, ListRepositories, ListRuns,
    CompareCommits, ListPullRequests, EditPullRequest, CreatePullRequest,
    GetPullRequest, gitHubAPI, bind, ret;
  rewrite !(Do_authorized _ _ _ _ _ _ _ _ _ Htok); cbn zeta;
  repeat match goal with
         | |- context [receive ?dec ?t ?a] =>
             let res := fresh "res" in
             let err := fresh "err" in
             destruct (receive dec t a) as [res err]
         end.

(** [Versions] and [CreateRelease] address the same URL, the releases of
    the repository: the first with a GET and no payload, the second
    with a POST of the encoded request; each sends one request. *)
Theorem releases_endpoint (c : GitHubConfig.t S) (org repo : string)
    (req : CreateReleaseRequest.t) (w : World S) tok s' :
  GitHubConfig.Token c (source w) = ((tok, None), s') ->
  exists r1 r2,
    wire (@Versions_ S Versions _ (NewClient c) org repo w).2 = wire w ++ [r1] /\
    wire (@CreateRelease S Release _ (NewClient c) org repo req w).2 = wire w ++ [r2] /\
    http.URL r1 = "https://api.github.com" +:+ "/repos/" +:+ org +:+ "/" +:+ repo +:+ "/releases" /\
    http.URL r2 = http.URL r1 /\
    http.Method r1 = "GET" /\ http.Data r1 = None /\
    http.Method r2 = "POST" /\
    http.Data r2 = Some (JObj (CreateReleaseRequest.members req)).
Proof.
  intros Htok. run_authorized Htok.
  eexists _, _. cbn. repeat split.
Qed.

(** [ListPullRequests] and [CreatePullRequest] address the same URL, the
    pulls of the repository: the first with a GET carrying the encoded
    options, the second with a POST carrying the encoded new pull
    request. *)
Theorem pulls_endpoint (c : GitHubConfig.t S) (org repo : string)
    (opts : PullRequestListOptions) (body : NewPullRequest)
    (w : World S) tok s' :
  GitHubConfig.Token c (source w) = ((tok, None), s') ->
  exists r1 r2,
    wire (@ListPullRequests S PullRequest _ _ _ (NewClient c) org repo opts w).2
      = wire w ++ [r1] /\
    wire (@CreatePullRequest S PullRequest _ _ _ (NewClient c) org repo body w).2
      = wire w ++ [r2] /\
    http.URL r1 = "https://api.github.com" +:+ "/repos/" +:+ org +:+ "/" +:+ repo +:+ "/pulls" /\
    http.URL r2 = http.URL r1 /\
    http.Method r1 = "GET" /\ http.Data r1 = Some (marshal opts) /\
    http.Method r2 = "POST" /\ http.Data r2 = Some (marshal body).
Proof.
  intros Htok. run_authorized Htok.
  destruct err0; eexists _, _; cbn; repeat split.
Qed.

(** [EditPullRequest] and [GetPullRequest] address the same URL, the
    pull request of that number written in decimal: the first with a
    PATCH carrying the encoded update, the second with a GET and no
    payload. *)
Theorem pull_by_number_endpoint (c : GitHubConfig.t S) (org repo : string)
    (number : Z) (body : PullRequestUpdate) (w : World S) tok s' :
  GitHubConfig.Token c (source w) = ((tok, None), s') ->
  exists r1 r2,
    wire (EditPullRequest (NewClient c) org repo number body w).2 = wire w ++ [r1] /\
    wire (@GetPullRequest S PullRequest _ (NewClient c) org repo number w).2
      = wire w ++ [r2] /\
    http.URL r1 = "https://api.github.com" +:+ "/repos/" +:+ org +:+ "/" +:+ repo +:+
                  "/pulls/" +:+ pretty number /\
    http.URL r2 = http.URL r1 /\
    http.Method r1 = "PATCH" /\ http.Data r1 = Some (marshal body) /\
    http.Method r2 = "GET" /\ http.Data r2 = None.
Proof.
  intros Htok. run_authorized Htok.
  eexists _, _; cbn; repeat split.
Qed.

(** Pull requests of different numbers are fetched with different
    requests: the number is part of the URL. *)
Theorem GetPullRequest_number_in_url (c : GitHubConfig.t S)
    (org repo : string) (n1 n2 : Z) (w : World S) tok s' :
  GitHubConfig.Token c (source w) = ((tok, None), s') ->
  n1 <> n2 ->
  wire (@GetPullRequest S PullRequest _ (NewClient c) org repo n1 w).2
    <> wire (@GetPullRequest S PullRequest _ (NewClient c) org repo n2 w).2.
Proof.
  intros Htok Hne. run_authorized Htok. cbn.
  intros H. apply app_inv_head in H. injection H as H.
  repeat apply String.app_inj in H.
  apply (inj pretty) in H. contradiction.
Qed.

(** [CreatePullRequest] returns either a pull request or an error, never
    both and never neither. *)
Theorem CreatePullRequest_pointer_xor_error (c : GitHubClient S)
    (org repo : string) (body : NewPullRequest) (w : World S) :
  let res := (@CreatePullRequest S PullRequest _ _ _ c org repo body w).1 in
  (exists pr, res = (Some pr, None)) \/ (exists e, res = (None, Some e)).
Proof.
  unfold CreatePullRequest, bind, ret.
  destruct (Do _ _ _ _ _ _ _) as [[pr [e|]] w']; cbn; eauto.
Qed.

(** The path segments are interpolated as they are: a slash in the
    organization moves the boundary between organization and repository,
    so such pairs are the same call. *)
Theorem GetRepo_segments_not_escaped (c : GitHubClient S)
    (a b name : string) (w : World S) :
  GetRepo c (a +:+ "/" +:+ b) name w = GetRepo c a (b +:+ "/" +:+ name) w.
Proof.
  unfold GetRepo. cbn zeta.
  replace (gitHubAPI +:+ "/repos/" +:+ (a +:+ "/" +:+ b) +:+ "/" +:+ name)
    with (gitHubAPI +:+ "/repos/" +:+ a +:+ "/" +:+ (b +:+ "/" +:+ name));
    [reflexivity|].
  rewrite !append_assoc. reflexivity.
Qed.

(** What [Do] makes of an answer that is a transport error or has a
    status outside 2xx: the error, with the target as it was. *)
Lemma receive_failed {A} dec (target : A) (answer : http.Response + error) err :
  answer = inr err \/
  (exists resp, answer = inl resp /\ is2xx (http.StatusCode resp) = false /\
                err = APIError (http.StatusCode resp) (http.Body resp)) ->
  receive dec target answer = (target, Some err).
Proof.
  intros [-> | (resp & -> & Hst & ->)]; unfold receive; [reflexivity|].
  rewrite Hst. reflexivity.
Qed.

(** When the transport fails or the remote answers outside 2xx, every
    operation returns that error with an empty result: the zero value
    or nil slice, a pointer to a zero struct for [CreateRelease] and
    [GetPullRequest], the nil pointer for [CreatePullRequest]. *)
Theorem failed_call_returns_zero (c : GitHubConfig.t S) (org repo workflow base head : string)
    (req : CreateReleaseRequest.t) (opts : PullRequestListOptions)
    (number : Z) (upd : PullRequestUpdate) (body : NewPullRequest)
    (w : World S) tok s' (answer : http.Response + error) err :
  GitHubConfig.Token c (source w) = ((tok, None), s') ->
  (forall r, GitHubConfig.transport c r = answer) ->
  answer = inr err \/
  (exists resp, answer = inl resp /\ is2xx (http.StatusCode resp) = false /\
                err = APIError (http.StatusCode resp) (http.Body resp)) ->
  (@Versions_ S Versions _ (NewClient c) org repo w).1 = (zero, Some err) /\
  (@CreateRelease S Release _ (NewClient c) org repo req w).1 = (Some zero, Some err) /\
  (GetRepo (NewClient c) org repo w).1 = (zero, Some err) /\
  (ListRepositories (NewClient c) org w).1 = ([], Some err) /\
  (@ListRuns S workflowRun _ (NewClient c) org repo workflow w).1 = ([], Some err) /\
  (@CompareCommits S RepositoryCommit _ (NewClient c) org repo base head w).1
    = ([], Some err) /\
  (@ListPullRequests S PullRequest _ _ _ (NewClient c) org repo opts w).1
    = ([], Some err) /\
  (EditPullRequest (NewClient c) org repo number upd w).1 = Some err /\
  (@CreatePullRequest S PullRequest _ _ _ (NewClient c) org repo body w).1
    = (None, Some err) /\
  (@GetPullRequest S PullRequest _ (NewClient c) org repo number w).1
    = (Some zero, Some err).
Proof.
  intros Htok Hrt Hfail.
  unfold Versions_, CreateRelease, GetRepo, ListRepositories, ListRuns,
    CompareCommits, ListPullRequests, EditPullRequest, CreatePullRequest,
    GetPullRequest, bind, ret.
  rewrite !(Do_authorized _ _ _ _ _ _ _ _ _ Htok). cbn zeta.
  rewrite !Hrt, !(receive_failed _ _ _ _ Hfail).
  repeat split.
Qed.

(** [EditPullRequest] names no target for the response: with a token
    and a 2xx answer it returns no error, whatever the body is. *)
Theorem EditPullRequest_ignores_body (c : GitHubConfig.t S) (org repo : string)
    (number : Z) (upd : PullRequestUpdate) (w : World S) tok s'
    (resp : http.Response) :
  GitHubConfig.Token c (source w) = ((tok, None), s') ->
  (forall r, GitHubConfig.transport c r = inl resp) ->
  is2xx (http.StatusCode resp) = true ->
  (EditPullRequest (NewClient c) org repo number upd w).1 = None.
Proof.
  intros Htok Hrt Hst. unfold EditPullRequest, bind, ret.
  rewrite (Do_authorized _ _ _ _ _ _ _ _ _ Htok). cbn zeta.
  rewrite Hrt. unfold receive. rewrite Hst. reflexivity.
Qed.

End EndpointFacts.

Lemma releases_endpoint_witness :
  let c := Mock.config Mock.tokens (Mock.remote 200 JNull) in
  let req := {| CreateReleaseRequest.TagName := "v1.0";
                CreateReleaseRequest.Name := "";
                CreateReleaseRequest.Body := "";
                CreateReleaseRequest.Draft := false;
                CreateReleaseRequest.Prerelease := true;
                CreateReleaseRequest.GenerateReleaseNotes := false;
                CreateReleaseRequest.DiscussionCategoryName := "" |} in
  GitHubConfig.Token c (httpclient.source Mock.start)
    = (({| TokenType := "Bearer"; AccessToken := "t0" |}, None), 1%nat) /\
  exists r1 r2,
    httpclient.wire (@Versions_ nat unit _ (NewClient c) "acme" "widget" Mock.start).2
      = httpclient.wire Mock.start ++ [r1] /\
    httpclient.wire (@CreateRelease nat unit _ (NewClient c) "acme" "widget" req Mock.start).2
      = httpclient.wire Mock.start ++ [r2] /\
    http.URL r1 = "https://api.github.com" +:+ "/repos/" +:+ "acme" +:+ "/" +:+ "widget" +:+ "/releases" /\
    http.URL r2 = http.URL r1 /\
    http.Method r1 = "GET" /\ http.Data r1 = None /\
    http.Method r2 = "POST" /\
    http.Data r2 = Some (JObj (CreateReleaseRequest.members req)).
Proof.
  intros c req. split; [reflexivity|].
  apply (releases_endpoint (Versions := unit) (Release := unit)
           c "acme" "widget" req Mock.start
           {| TokenType := "Bearer"; AccessToken := "t0" |} 1%nat).
  reflexivity.
Defined.

Lemma pulls_endpoint_witness :
  let c := Mock.config Mock.tokens (Mock.remote 200 JNull) in
  GitHubConfig.Token c (httpclient.source Mock.start)
    = (({| TokenType := "Bearer"; AccessToken := "t0" |}, None), 1%nat) /\
  exists r1 r2,
    httpclient.wire (@ListPullRequests nat unit _ unit _ (NewClient c) "acme" "widget" tt Mock.start).2
      = httpclient.wire Mock.start ++ [r1] /\
    httpclient.wire (@CreatePullRequest nat unit _ unit _ (NewClient c) "acme" "widget" tt Mock.start).2
      = httpclient.wire Mock.start ++ [r2] /\
    http.URL r1 = "https://api.github.com" +:+ "/repos/" +:+ "acme" +:+ "/" +:+ "widget" +:+ "/pulls" /\
    http.URL r2 = http.URL r1 /\
    http.Method r1 = "GET" /\ http.Data r1 = Some (marshal tt) /\
    http.Method r2 = "POST" /\ http.Data r2 = Some (marshal tt).
Proof.
  intros c. split; [reflexivity|].
  apply (pulls_endpoint (PullRequest := unit) (PullRequestListOptions := unit)
           (NewPullRequest := unit)
           c "acme" "widget" tt tt Mock.start
           {| TokenType := "Bearer"; AccessToken := "t0" |} 1%nat).
  reflexivity.
Defined.

Lemma pull_by_number_endpoint_witness :
  let c := Mock.config Mock.tokens (Mock.remote 200 JNull) in
  GitHubConfig.Token c (httpclient.source Mock.start)
    = (({| TokenType := "Bearer"; AccessToken := "t0" |}, None), 1%nat) /\
  exists r1 r2,
    httpclient.wire (@EditPullRequest nat unit _ (NewClient c) "acme" "widget" 42 tt Mock.start).2
      = httpclient.wire Mock.start ++ [r1] /\
    httpclient.wire (@GetPullRequest nat unit _ (NewClient c) "acme" "widget" 42 Mock.start).2
      = httpclient.wire Mock.start ++ [r2] /\
    http.URL r1 = "https://api.github.com" +:+ "/repos/" +:+ "acme" +:+ "/" +:+ "widget" +:+
                  "/pulls/" +:+ pretty 42 /\
    http.URL r2 = http.URL r1 /\
    http.Method r1 = "PATCH" /\ http.Data r1 = Some (marshal tt) /\
    http.Method r2 = "GET" /\ http.Data r2 = None.
Proof.
  intros c. split; [reflexivity|].
  apply (pull_by_number_endpoint (PullRequest := unit) (PullRequestUpdate := unit)
           c "acme" "widget" 42 tt Mock.start
           {| TokenType := "Bearer"; AccessToken := "t0" |} 1%nat).
  reflexivity.
Defined.

Lemma GetPullRequest_number_in_url_witness :
  let c := Mock.config Mock.tokens (Mock.remote 200 JNull) in
  (GitHubConfig.Token c (httpclient.source Mock.start)
     = (({| TokenType := "Bearer"; AccessToken := "t0" |}, None), 1%nat) /\
   7 <> 8) /\
  httpclient.wire (@GetPullRequest nat unit _ (NewClient c) "acme" "widget" 7 Mock.start).2
    <> httpclient.wire (@GetPullRequest nat unit _ (NewClient c) "acme" "widget" 8 Mock.start).2.
Proof.
  intros c. split; [split; [reflexivity|lia]|].
  apply (GetPullRequest_number_in_url (PullRequest := unit)
           c "acme" "widget" 7 8 Mock.start
           {| TokenType := "Bearer"; AccessToken := "t0" |} 1%nat).
  - reflexivity.
  - lia.
Defined.

Lemma failed_call_returns_zero_witness :
  let body := JObj [("message", JStr "Not Found")] in
  let c := Mock.config Mock.tokens (Mock.remote 404 body) in
  let resp := {| http.StatusCode := 404; http.Body := Some body |} in
  let err := APIError 404 (Some body) in
  let answer : http.Response + error := inl resp in
  let req := CreateReleaseRequest.Build_t "v1.0" "" "" false false false "" in
  (GitHubConfig.Token c (httpclient.source Mock.start)
     = (({| TokenType := "Bearer"; AccessToken := "t0" |}, None), 1%nat) /\
   (forall r, GitHubConfig.transport c r = answer) /\
   (answer = inr err \/
    exists resp', answer = inl resp' /\
      httpclient.is2xx (http.StatusCode resp') = false /\
      err = APIError (http.StatusCode resp') (http.Body resp'))) /\
  (@Versions_ nat unit _ (NewClient c) "acme" "widget" Mock.start).1 = (zero, Some err) /\
  (@CreateRelease nat unit _ (NewClient c) "acme" "widget" req Mock.start).1
    = (Some zero, Some err) /\
  (GetRepo (NewClient c) "acme" "widget" Mock.start).1 = (zero, Some err) /\
  (ListRepositories (NewClient c) "acme" Mock.start).1 = ([], Some err) /\
  (@ListRuns nat unit _ (NewClient c) "acme" "widget" "build" Mock.start).1
    = ([], Some err) /\
  (@CompareCommits nat unit _ (NewClient c) "acme" "widget" "main" "dev" Mock.start).1
    = ([], Some err) /\
  (@ListPullRequests nat unit _ unit _ (NewClient c) "acme" "widget" tt Mock.start).1
    = ([], Some err) /\
  (@EditPullRequest nat unit _ (NewClient c) "acme" "widget" 42 tt Mock.start).1
    = Some err /\
  (@CreatePullRequest nat unit _ unit _ (NewClient c) "acme" "widget" tt Mock.start).1
    = (None, Some err) /\
  (@GetPullRequest nat unit _ (NewClient c) "acme" "widget" 42 Mock.start).1
    = (Some zero, Some err).
Proof.
  intros body c resp err answer req.
  assert (Hfail : answer = inr err \/
    exists resp', answer = inl resp' /\
      httpclient.is2xx (http.StatusCode resp') = false /\
      err = APIError (http.StatusCode resp') (http.Body resp')).
  { right. exists resp. repeat split. }
  split; [split; [reflexivity|split; [intros r; reflexivity|exact Hfail]]|].
  apply (failed_call_returns_zero (Versions := unit) (Release := unit)
           (workflowRun := unit) (RepositoryCommit := unit) (PullRequest := unit)
           (PullRequestListOptions := unit) (PullRequestUpdate := unit)
           (NewPullRequest := unit)
           c "acme" "widget" "build" "main" "dev" req tt 42 tt tt Mock.start
           {| TokenType := "Bearer"; AccessToken := "t0" |} 1%nat answer err).
  - reflexivity.
  - intros r. reflexivity.
  - exact Hfail.
Defined.

Lemma EditPullRequest_ignores_body_witness :
  let c := Mock.config Mock.tokens
             (fun _ => inl {| http.StatusCode := 200; http.Body := None |}) in
  let resp := {| http.StatusCode := 200; http.Body := None |} in
  (GitHubConfig.Token c (httpclient.source Mock.start)
     = (({| TokenType := "Bearer"; AccessToken := "t0" |}, None), 1%nat) /\
   (forall r, GitHubConfig.transport c r = inl resp) /\
   httpclient.is2xx (http.StatusCode resp) = true) /\
  (@EditPullRequest nat unit _ (NewClient c) "acme" "widget" 42 tt Mock.start).1 = None.
Proof.
  intros c resp. split; [repeat split|].
  apply (EditPullRequest_ignores_body (PullRequestUpdate := unit)
           c "acme" "widget" 42 tt Mock.start
           {| TokenType := "Bearer"; AccessToken := "t0" |} 1%nat resp).
  - reflexivity.
  - intros r. reflexivity.
  - reflexivity.
Defined.

(** * Further properties of the JSON forms *)

Section DecoderFacts.

Context {A : Type} (fields : list (fieldDecoder A)).

Lemma saveError_assoc (a b c : option error) :
  saveError (saveError a b) c = saveError a (saveError b c).
Proof. destruct a; reflexivity. Qed.

(** Decoding the members of an object goes left to right. *)
Lemma unmarshal_members_app (ms1 ms2 : list (string * json)) (cur : A) :
  unmarshal_members fields (ms1 ++ ms2) cur =
    let '(c1, e1) := unmarshal_members fields ms1 cur in
    let '(c2, e2) := unmarshal_members fields ms2 c1 in
    (c2, saveError e1 e2).
Proof.
  revert cur. induction ms1 as [|[k v] ms1 IH]; intros cur; cbn.
  - destruct (unmarshal_members fields ms2 cur); reflexivity.
  - destruct (findField fields k) as [dec|]; [|apply IH].
    destruct (dec v cur) as [c0 e0]. rewrite IH.
    destruct (unmarshal_members fields ms1 c0) as [c1 e1].
    destruct (unmarshal_members fields ms2 c1) as [c2 e2].
    rewrite saveError_assoc. reflexivity.
Qed.

(** A member that changes nothing wherever it is met can be left out. *)
Lemma unmarshal_members_drop (k : string) (v : json)
    (ms1 ms2 : list (string * json)) (cur : A) :
  (forall c, unmarshal_members fields [(k, v)] c = (c, None)) ->
  unmarshal_members fields (ms1 ++ (k, v) :: ms2) cur =
  unmarshal_members fields (ms1 ++ ms2) cur.
Proof.
  intros Hnoop.
  change ((k, v) :: ms2) with ([(k, v)] ++ ms2).
  rewrite !(unmarshal_members_app ms1).
  destruct (unmarshal_members fields ms1 cur) as [c1 e1].
  rewrite unmarshal_members_app, Hnoop.
  destruct (unmarshal_members fields ms2 c1) as [c2 e2]. reflexivity.
Qed.

End DecoderFacts.

(** A member under a key that is none of the tags of [Repo], in any
    letter case, is skipped: it changes neither the decoded repository
    nor the error. *)
Theorem Repo_unknown_member_ignored (k : string) (v : json)
    (ms1 ms2 : list (string * json)) (cur : Repo.t) :
  findField Repo.fields k = None ->
  unmarshal (JObj (ms1 ++ (k, v) :: ms2)) cur = unmarshal (JObj (ms1 ++ ms2)) cur.
Proof.
  intros Hk. cbn. apply unmarshal_members_drop.
  intros c. cbn. rewrite Hk. reflexivity.
Qed.

Lemma Repo_unknown_member_ignored_witness :
  findField Repo.fields "forks_count" = None /\
  unmarshal (JObj ([("name", JStr "x")] ++ ("forks_count", JNum 9) ::
                   [("stargazers_count", JNum 5)])) (zero : Repo.t)
  = unmarshal (JObj ([("name", JStr "x")] ++ [("stargazers_count", JNum 5)]))
      (zero : Repo.t).
Proof.
  split; [reflexivity|].
  apply (Repo_unknown_member_ignored "forks_count" (JNum 9)
           [("name", JStr "x")] [("stargazers_count", JNum 5)] zero).
  reflexivity.
Defined.

(** A [null] under any tag of [Repo] other than "topics" is no error and
    leaves the field as it was (the remote sends [null] for a missing
    description, language or license). *)
Theorem Repo_null_member_ignored (k : string)
    (ms1 ms2 : list (string * json)) (cur : Repo.t) :
  k ∈ ["name"; "description"; "language"; "default_branch";
       "stargazers_count"; "fork"; "archived"; "html_url"; "clone_url";
       "ssh_url"; "license"] ->
  unmarshal (JObj (ms1 ++ (k, JNull) :: ms2)) cur = unmarshal (JObj (ms1 ++ ms2)) cur.
Proof.
  intros Hk. cbn. apply unmarshal_members_drop.
  intros [n d l b st f a tp h cl ss lic].
  repeat (apply elem_of_cons in Hk as [-> | Hk]; [reflexivity|]).
  apply elem_of_nil in Hk. contradiction.
Qed.

Lemma Repo_null_member_ignored_witness :
  "license" ∈ ["name"; "description"; "language"; "default_branch";
       "stargazers_count"; "fork"; "archived"; "html_url"; "clone_url";
       "ssh_url"; "license"] /\
  unmarshal (JObj ([("name", JStr "x")] ++ ("license", JNull) :: [])) (zero : Repo.t)
  = unmarshal (JObj ([("name", JStr "x")] ++ [])) (zero : Repo.t).
Proof.
  assert (H : "license" ∈ ["name"; "description"; "language"; "default_branch";
       "stargazers_count"; "fork"; "archived"; "html_url"; "clone_url";
       "ssh_url"; "license"]) by (repeat constructor).
  split; [exact H|].
  apply (Repo_null_member_ignored "license" [("name", JStr "x")] [] zero H).
Defined.

(** Decoding the encoding of a list gives the list back when it does so
    for each element. *)
Lemma unmarshal_marshal_slice `{Unmarshal A, Marshal A} (l cur : list A) :
  Forall (fun x => unmarshal (marshal x) zero = (x, None)) l ->
  unmarshal (marshal l) cur = (l, None).
Proof.
  intros Hl. destruct l as [|x l]; [reflexivity|].
  cbn [marshal Marshal_slice unmarshal Unmarshal_slice].
  induction Hl as [|y l' Hy Hl' IH]; [reflexivity|].
  cbn [List.map unmarshal_elems]. rewrite Hy, IH. reflexivity.
Qed.

(** A member that is met decodes into the struct and the rest goes on. *)
Lemma unmarshal_members_step {A} (fields : list (fieldDecoder A)) k v ms
    (cur cur' : A) dec :
  findField fields k = Some dec ->
  dec v cur = (cur', None) ->
  unmarshal_members fields ((k, v) :: ms) cur = unmarshal_members fields ms cur'.
Proof.
  intros Hk Hdec. cbn. rewrite Hk, Hdec.
  destruct (unmarshal_members fields ms cur'). reflexivity.
Qed.

(** Decoding the encoding of a repository gives it back. *)
Lemma Repo_round_trip (r cur : Repo.t) :
  fits_int (Repo.Stars r) = true ->
  unmarshal (marshal r) cur = (r, None).
Proof.
  destruct r as [n d l b st f a tp h cl ss [ln]].
  destruct cur as [n0 d0 l0 b0 st0 f0 a0 tp0 h0 cl0 ss0 [ln0]].
  cbn [Repo.Stars]. intros Hst.
  assert (Htp : forall c : list string, unmarshal (marshal tp) c = (tp, None)).
  { intros c. apply unmarshal_marshal_slice.
    apply Forall_forall. intros x _. reflexivity. }
  cbn [marshal Marshal_Repo unmarshal Unmarshal_Repo unmarshal_struct
       Repo.Name Repo.Description Repo.Langauge Repo.DefaultBranch Repo.Stars
       Repo.IsFork Repo.IsArchived Repo.Topics Repo.HtmlURL Repo.CloneURL
       Repo.SshURL Repo.License].
  repeat (erewrite unmarshal_members_step;
          [ | reflexivity
            | cbn [field snd Repo.Name Repo.Description Repo.Langauge
                   Repo.DefaultBranch Repo.Stars Repo.IsFork Repo.IsArchived
                   Repo.Topics Repo.HtmlURL Repo.CloneURL Repo.SshURL
                   Repo.License];
              first [ rewrite Htp; reflexivity
                    | cbn; rewrite ?Hst; reflexivity ] ]).
  reflexivity.
Qed.

(** Round trip of [Repo] through its tags: decoding what [json.Marshal]
    writes for a repository gives the repository back, with no error,
    whatever the variable held before, and so for a list of
    repositories; the star counts have to be [int]s. *)
Theorem Repo_unmarshal_marshal (r cur : Repo.t) (repos curs : Repositories) :
  fits_int (Repo.Stars r) = true ->
  Forall (fun x => fits_int (Repo.Stars x) = true) repos ->
  unmarshal (marshal r) cur = (r, None) /\
  unmarshal (marshal repos) curs = (repos, None).
Proof.
  intros Hr Hrepos. split.
  - apply Repo_round_trip. exact Hr.
  - apply unmarshal_marshal_slice.
    eapply Forall_impl; [exact Hrepos|].
    intros x Hx. apply Repo_round_trip. exact Hx.
Qed.

Lemma Repo_unmarshal_marshal_witness :
  let r := Repo.mk "widget" "A widget" "Go" "main" 42 false true
             ["cli"; "tools"] "https://github.com/acme/widget"
             "https://github.com/acme/widget.git" "git@github.com:acme/widget.git"
             {| License.Name := "MIT" |} in
  let cur := Repo.mk "old" "" "" "" 7 true false ["stale"] "" "" ""
               {| License.Name := "GPL" |} in
  let repos := [r; zero] in
  (fits_int (Repo.Stars r) = true /\
   Forall (fun x => fits_int (Repo.Stars x) = true) repos) /\
  unmarshal (marshal r) cur = (r, None) /\
  unmarshal (marshal repos) [cur] = (repos, None).
Proof.
  intros r cur repos.
  assert (Hfit : Forall (fun x => fits_int (Repo.Stars x) = true) repos)
    by (repeat constructor).
  split; [split; [reflexivity|exact Hfit]|].
  apply (Repo_unmarshal_marshal r cur repos [cur]); [reflexivity|exact Hfit].
Defined.

(** Round trip of [CreateReleaseRequest]: decoding the payload into a
    zero request gives the request back.  The fields [omitempty] leaves
    out are zero, which is what the zero request holds for them. *)
Theorem CreateReleaseRequest_unmarshal_marshal (r : CreateReleaseRequest.t) :
  unmarshal (marshal r) zero = (r, None).
Proof.
  destruct r as [tag nm bd dr pr gen disc].
  cbn [marshal Marshal_CreateReleaseRequest].
  unfold CreateReleaseRequest.members, omitempty_string, omitempty_bool.
  cbn [CreateReleaseRequest.TagName CreateReleaseRequest.Name
       CreateReleaseRequest.Body CreateReleaseRequest.Draft
       CreateReleaseRequest.Prerelease
       CreateReleaseRequest.GenerateReleaseNotes
       CreateReleaseRequest.DiscussionCategoryName].
  repeat case_decide; subst; destruct dr, pr, gen; reflexivity.
Qed.

(** The payload of [CreateRelease] names no key twice, and it is the
    empty object exactly for the zero request. *)
Theorem CreateReleaseRequest_members_keys (r : CreateReleaseRequest.t) :
  NoDup (CreateReleaseRequest.members r).*1 /\
  (CreateReleaseRequest.members r = [] <-> r = zero).
Proof.
  destruct r as [tag nm bd dr pr gen disc].
  unfold CreateReleaseRequest.members, omitempty_string, omitempty_bool.
  cbn [CreateReleaseRequest.TagName CreateReleaseRequest.Name
       CreateReleaseRequest.Body CreateReleaseRequest.Draft
       CreateReleaseRequest.Prerelease
       CreateReleaseRequest.GenerateReleaseNotes
       CreateReleaseRequest.DiscussionCategoryName].
  repeat case_decide; subst; destruct dr, pr, gen; cbn;
    (split; [ apply (bool_decide_unpack _); vm_compute; exact I
            | split; intros Heq; try discriminate Heq; try reflexivity;
              exfalso; injection Heq; intros; congruence ]).
Qed.

Section EchoFacts.

Context {S : Type}.
Import httpclient.

(** Against a remote that answers 2xx with the encoding of a list of
    repositories, [ListRepositories] returns that list and no error. *)
Theorem ListRepositories_returns_what_was_sent (c : GitHubConfig.t S)
    (org : string) (w : World S) tok s' (status : Z) (repos : Repositories) :
  GitHubConfig.Token c (source w) = ((tok, None), s') ->
  is2xx status = true ->
  (forall r, GitHubConfig.transport c r =
     inl {| http.StatusCode := status; http.Body := Some (marshal repos) |}) ->
  Forall (fun r => fits_int (Repo.Stars r) = true) repos ->
  (ListRepositories (NewClient c) org w).1 = (repos, None).
Proof.
  intros Htok Hst Hrt Hfit.
  unfold ListRepositories, bind, ret.
  rewrite (Do_authorized _ _ _ _ _ _ _ _ _ Htok). cbn zeta.
  rewrite Hrt. unfold receive. cbn [http.StatusCode http.Body].
  rewrite Hst. unfold WithResponseUnmarshal.
  rewrite unmarshal_marshal_slice; [reflexivity|].
  eapply Forall_impl; [exact Hfit|].
  intros r Hr. apply Repo_round_trip. exact Hr.
Qed.

(** Against a remote that answers 2xx with the encoding of a repository,
    [GetRepo] returns that repository and no error. *)
Theorem GetRepo_returns_what_was_sent (c : GitHubConfig.t S)
    (org name : string) (w : World S) tok s' (status : Z) (repo : Repo.t) :
  GitHubConfig.Token c (source w) = ((tok, None), s') ->
  is2xx status = true ->
  (forall r, GitHubConfig.transport c r =
     inl {| http.StatusCode := status; http.Body := Some (marshal repo) |}) ->
  fits_int (Repo.Stars repo) = true ->
  (GetRepo (NewClient c) org name w).1 = (repo, None).
Proof.
  intros Htok Hst Hrt Hfit.
  unfold GetRepo, bind, ret.
  rewrite (Do_authorized _ _ _ _ _ _ _ _ _ Htok). cbn zeta.
  rewrite Hrt. unfold receive. cbn [http.StatusCode http.Body].
  rewrite Hst. unfold WithResponseUnmarshal.
  rewrite Repo_round_trip by exact Hfit. reflexivity.
Qed.

End EchoFacts.

Lemma ListRepositories_returns_what_was_sent_witness :
  let repos := [ Repo.mk "widget" "A widget" "Go" "main" 42 false true
                   ["cli"; "tools"] "" "" "" {| License.Name := "MIT" |};
                 Repo.mk "gadget" "" "" "" 0 true false [] "" "" ""
                   {| License.Name := "" |} ] in
  let c := Mock.config Mock.tokens (Mock.remote 200 (marshal repos)) in
  (GitHubConfig.Token c (httpclient.source Mock.start)
     = (({| TokenType := "Bearer"; AccessToken := "t0" |}, None), 1%nat) /\
   httpclient.is2xx 200 = true /\
   (forall r, GitHubConfig.transport c r =
      inl {| http.StatusCode := 200; http.Body := Some (marshal repos) |}) /\
   Forall (fun r => fits_int (Repo.Stars r) = true) repos) /\
  (ListRepositories (NewClient c) "acme" Mock.start).1 = (repos, None).
Proof.
  intros repos c.
  assert (Hfit : Forall (fun r => fits_int (Repo.Stars r) = true) repos)
    by (repeat constructor).
  split; [repeat split; exact Hfit|].
  apply (ListRepositories_returns_what_was_sent c "acme" Mock.start
           {| TokenType := "Bearer"; AccessToken := "t0" |} 1%nat 200 repos).
  - reflexivity.
  - reflexivity.
  - intros r. reflexivity.
  - exact Hfit.
Defined.

Lemma GetRepo_returns_what_was_sent_witness :
  let repo := Repo.mk "widget" "A widget" "Go" "main" 42 false true
                ["cli"; "tools"] "" "" "" {| License.Name := "MIT" |} in
  let c := Mock.config Mock.tokens (Mock.remote 200 (marshal repo)) in
  (GitHubConfig.Token c (httpclient.source Mock.start)
     = (({| TokenType := "Bearer"; AccessToken := "t0" |}, None), 1%nat) /\
   httpclient.is2xx 200 = true /\
   (forall r, GitHubConfig.transport c r =
      inl {| http.StatusCode := 200; http.Body := Some (marshal repo) |}) /\
   fits_int (Repo.Stars repo) = true) /\
  (GetRepo (NewClient c) "acme" "widget" Mock.start).1 = (repo, None).
Proof.
  intros repo c. split; [repeat split|].
  apply (GetRepo_returns_what_was_sent c "acme" "widget" Mock.start
           {| TokenType := "Bearer"; AccessToken := "t0" |} 1%nat 200 repo).
  - reflexivity.
  - reflexivity.
  - intros r. reflexivity.
  - reflexivity.
Defined.

(** * Further properties of the repository cache *)

Section RepositoryCacheMore.

Context {S Blob : Type} `{!localcache.Codec Repositories Blob}.
Import httpclient.

(** A load that finds no readable entry younger than the TTL is a
    recompute. *)
Lemma Load_refreshes {T W} `{!localcache.Codec T Blob}
    (c : localcache.LocalCache T) (now : Z)
    (f : W -> (T * option error) * W) (st : localcache.Store Blob) (w : W) :
  (forall e, localcache.get st (localcache.name c) ≫= localcache.decode = Some e ->
             localcache.validity c < now - localcache.fetchedAt e) ->
  localcache.Load c now f (st, w) = localcache.refresh c now f (st, w).
Proof.
  intros Hold. unfold localcache.Load.
  destruct (localcache.get st (localcache.name c) ≫= localcache.decode)
    as [e|]; [|reflexivity].
  unfold localcache.fresh.
  specialize (Hold e eq_refl).
  destruct (Z.ltb_spec (now - localcache.fetchedAt e) (localcache.validity c));
    [lia|reflexivity].
Qed.

(** The recompute of the repository cache against a remote that answers
    2xx with a list: one GET of the organization's repositories, the
    list stored under the organization's key with the time of the
    load, and every other key as it was. *)
Lemma repositoryCache_refresh (c : GitHubConfig.t S) (org cacheDir : string)
    (now : Z) (st : localcache.Store Blob) (w : World S) tok s' (status : Z)
    (repos : Repositories) :
  let r := NewRepositoryCache (NewClient c) org cacheDir in
  localcache.writable st = true ->
  GitHubConfig.Token c (source w) = ((tok, None), s') ->
  is2xx status = true ->
  (forall q, GitHubConfig.transport c q =
     inl {| http.StatusCode := status; http.Body := Some (marshal repos) |}) ->
  Forall (fun x => fits_int (Repo.Stars x) = true) repos ->
  exists q st' w',
    localcache.refresh (cache r) now
      (fun w => ListRepositories (client r) (Org r) w) (st, w)
      = ((repos, None), (st', w')) /\
    wire w' = wire w ++ [q] /\
    http.Method q = "GET" /\
    http.URL q = "https://api.github.com" +:+ "/users/" +:+ org +:+ "/repos" /\
    localcache.get st' (org +:+ "-repositories")
      = Some (localcache.encode
                {| localcache.value := repos; localcache.fetchedAt := now |}) /\
    forall k, k <> org +:+ "-repositories" ->
      localcache.get st' k = localcache.get st k.
Proof.
  intros r Hw Htok Hst Hrt Hfit.
  unfold localcache.refresh. cbn [cache client Org r NewRepositoryCache].
  unfold ListRepositories, gitHubAPI, bind, ret.
  rewrite (Do_authorized _ _ _ _ _ _ _ _ _ Htok). cbn zeta.
  rewrite Hrt. unfold receive. cbn [http.StatusCode http.Body].
  rewrite Hst. unfold WithResponseUnmarshal.
  rewrite unmarshal_marshal_slice.
  2:{ eapply Forall_impl; [exact Hfit|].
      intros x Hx. apply Repo_round_trip. exact Hx. }
  unfold localcache.put. rewrite Hw.
  eexists _, _, _. split; [reflexivity|]. cbn.
  unfold localcache.get; cbn. repeat split.
  - apply lookup_insert_eq.
  - intros k Hk. apply lookup_insert_ne. congruence.
Qed.

(** Cold start: with no entry for the organization, a writable store, a
    token and a remote that answers 2xx with a list, the load of the
    repository cache sends one GET of /users/{org}/repos, returns the
    list, and stores it under "{org}-repositories" with the time of the
    load, touching no other key. *)
Theorem repositoryCache_Load_cold (c : GitHubConfig.t S) (org cacheDir : string)
    (now : Z) (st : localcache.Store Blob) (w : World S) tok s' (status : Z)
    (repos : Repositories) :
  localcache.get st (org +:+ "-repositories") = None ->
  localcache.writable st = true ->
  GitHubConfig.Token c (source w) = ((tok, None), s') ->
  is2xx status = true ->
  (forall q, GitHubConfig.transport c q =
     inl {| http.StatusCode := status; http.Body := Some (marshal repos) |}) ->
  Forall (fun x => fits_int (Repo.Stars x) = true) repos ->
  exists q st' w',
    Load (NewRepositoryCache (NewClient c) org cacheDir) now (st, w)
      = ((repos, None), (st', w')) /\
    wire w' = wire w ++ [q] /\
    http.Method q = "GET" /\
    http.URL q = "https://api.github.com" +:+ "/users/" +:+ org +:+ "/repos" /\
    localcache.get st' (org +:+ "-repositories")
      = Some (localcache.encode
                {| localcache.value := repos; localcache.fetchedAt := now |}) /\
    forall k, k <> org +:+ "-repositories" ->
      localcache.get st' k = localcache.get st k.
Proof.
  intros Habsent Hw Htok Hst Hrt Hfit. unfold Load.
  rewrite Load_refreshes.
  - apply (repositoryCache_refresh c org cacheDir now st w tok s' status repos);
      assumption.
  - intros e. cbn [cache NewRepositoryCache localcache.name localcache.NewLocalCache].
    rewrite Habsent. discriminate.
Qed.

(** Expiry: an entry for the organization older than 24 hours is not
    used; the load sends a GET again, returns the new list and
    overwrites the entry with it and the time of the load. *)
Theorem repositoryCache_Load_stale (c : GitHubConfig.t S) (org cacheDir : string)
    (now : Z) (st : localcache.Store Blob) (w : World S) tok s' (status : Z)
    (repos : Repositories) (b : Blob) (old : localcache.Entry Repositories) :
  localcache.get st (org +:+ "-repositories") = Some b ->
  localcache.decode b = Some old ->
  24 * (3600 * 1000000000) < now - localcache.fetchedAt old ->
  localcache.writable st = true ->
  GitHubConfig.Token c (source w) = ((tok, None), s') ->
  is2xx status = true ->
  (forall q, GitHubConfig.transport c q =
     inl {| http.StatusCode := status; http.Body := Some (marshal repos) |}) ->
  Forall (fun x => fits_int (Repo.Stars x) = true) repos ->
  exists q st' w',
    Load (NewRepositoryCache (NewClient c) org cacheDir) now (st, w)
      = ((repos, None), (st', w')) /\
    wire w' = wire w ++ [q] /\
    http.Method q = "GET" /\
    http.URL q = "https://api.github.com" +:+ "/users/" +:+ org +:+ "/repos" /\
    localcache.get st' (org +:+ "-repositories")
      = Some (localcache.encode
                {| localcache.value := repos; localcache.fetchedAt := now |}).
Proof.
  intros Hget Hdec Hold Hw Htok Hst Hrt Hfit. unfold Load.
  rewrite Load_refreshes.
  - destruct (repositoryCache_refresh c org cacheDir now st w tok s' status
                repos Hw Htok Hst Hrt Hfit) as (q & st' & w' & Hq).
    exists q, st', w'. tauto.
  - intros e. cbn [cache NewRepositoryCache localcache.name localcache.NewLocalCache].
    rewrite Hget. cbn [mbind option_bind]. rewrite Hdec.
    intros [= <-]. exact Hold.
Qed.

(** The caches of two organizations in one directory do not touch each
    other's entry: whatever a load for one organization does, the entry
    under the key of another organization is as it was. *)
Theorem repositoryCache_Load_other_org (cl cl' : GitHubClient S)
    (org org' cacheDir : string) (now : Z)
    (st : localcache.Store Blob) (w : World S) :
  org <> org' ->
  localcache.get (Load (NewRepositoryCache cl org cacheDir) now (st, w)).2.1
    (localcache.name (cache (NewRepositoryCache cl' org' cacheDir)))
  = localcache.get st
      (localcache.name (cache (NewRepositoryCache cl' org' cacheDir))).
Proof.
  intros Hne. unfold Load.
  destruct (Load_cases (cache (NewRepositoryCache cl org cacheDir)) now
              (fun w => ListRepositories (client (NewRepositoryCache cl org cacheDir))
                          (Org (NewRepositoryCache cl org cacheDir)) w) st w)
    as [[v ->] | ->]; [reflexivity|].
  unfold localcache.refresh.
  destruct (ListRepositories _ _ w) as [[v [e|]] w']; [reflexivity|].
  unfold localcache.put. destruct (localcache.writable st); [|reflexivity].
  unfold localcache.get; cbn.
  apply lookup_insert_ne. intros Heq. apply append_inj_suffix in Heq.
  contradiction.
Qed.

End RepositoryCacheMore.

Lemma repositoryCache_Load_cold_witness :
  let repos := [ Repo.mk "widget" "" "Go" "main" 42 false false ["cli"] "" "" ""
                   {| License.Name := "MIT" |} ] in
  let c := Mock.config Mock.tokens (Mock.remote 200 (marshal repos)) in
  (localcache.get Mock.emptyStore ("acme" +:+ "-repositories") = None /\
   localcache.writable Mock.emptyStore = true /\
   GitHubConfig.Token c (httpclient.source Mock.start)
     = (({| TokenType := "Bearer"; AccessToken := "t0" |}, None), 1%nat) /\
   httpclient.is2xx 200 = true /\
   (forall q, GitHubConfig.transport c q =
      inl {| http.StatusCode := 200; http.Body := Some (marshal repos) |}) /\
   Forall (fun x => fits_int (Repo.Stars x) = true) repos) /\
  exists q st' w',
    Load (NewRepositoryCache (NewClient c) "acme" "/var/cache") 1000
      (Mock.emptyStore, Mock.start) = ((repos, None), (st', w')) /\
    httpclient.wire w' = httpclient.wire Mock.start ++ [q] /\
    http.Method q = "GET" /\
    http.URL q = "https://api.github.com" +:+ "/users/" +:+ "acme" +:+ "/repos" /\
    localcache.get st' ("acme" +:+ "-repositories")
      = Some (localcache.encode
                {| localcache.value := repos; localcache.fetchedAt := 1000 |}) /\
    forall k, k <> "acme" +:+ "-repositories" ->
      localcache.get st' k = localcache.get Mock.emptyStore k.
Proof.
  intros repos c.
  assert (Hfit : Forall (fun x => fits_int (Repo.Stars x) = true) repos)
    by (repeat constructor).
  split; [repeat split; exact Hfit|].
  apply (repositoryCache_Load_cold c "acme" "/var/cache" 1000 Mock.emptyStore
           Mock.start {| TokenType := "Bearer"; AccessToken := "t0" |} 1%nat
           200 repos);
    first [exact Hfit | reflexivity | intros q; reflexivity].
Defined.

Lemma repositoryCache_Load_stale_witness :
  let repos := [ Repo.mk "widget" "" "Go" "main" 42 false false ["cli"] "" "" ""
                   {| License.Name := "MIT" |} ] in
  let c := Mock.config Mock.tokens (Mock.remote 200 (marshal repos)) in
  let old := {| localcache.value := ([] : Repositories);
                localcache.fetchedAt := 1000 |} in
  let st := {| localcache.blobs := {[ "acme-repositories" := Some old ]};
               localcache.writable := true |} in
  let now := 1000 + 25 * (3600 * 1000000000) in
  (localcache.get st ("acme" +:+ "-repositories") = Some (Some old) /\
   localcache.decode (Some old) = Some old /\
   24 * (3600 * 1000000000) < now - localcache.fetchedAt old /\
   localcache.writable st = true /\
   GitHubConfig.Token c (httpclient.source Mock.start)
     = (({| TokenType := "Bearer"; AccessToken := "t0" |}, None), 1%nat) /\
   httpclient.is2xx 200 = true /\
   (forall q, GitHubConfig.transport c q =
      inl {| http.StatusCode := 200; http.Body := Some (marshal repos) |}) /\
   Forall (fun x => fits_int (Repo.Stars x) = true) repos) /\
  exists q st' w',
    Load (NewRepositoryCache (NewClient c) "acme" "/var/cache") now
      (st, Mock.start) = ((repos, None), (st', w')) /\
    httpclient.wire w' = httpclient.wire Mock.start ++ [q] /\
    http.Method q = "GET" /\
    http.URL q = "https://api.github.com" +:+ "/users/" +:+ "acme" +:+ "/repos" /\
    localcache.get st' ("acme" +:+ "-repositories")
      = Some (localcache.encode
                {| localcache.value := repos; localcache.fetchedAt := now |}).
Proof.
  intros repos c old st now.
  assert (Hfit : Forall (fun x => fits_int (Repo.Stars x) = true) repos)
    by (repeat constructor).
  split; [repeat split; exact Hfit|].
  apply (repositoryCache_Load_stale c "acme" "/var/cache" now st
           Mock.start {| TokenType := "Bearer"; AccessToken := "t0" |} 1%nat
           200 repos (Some old) old);
    first [exact Hfit | reflexivity | intros q; reflexivity].
Defined.

Lemma repositoryCache_Load_other_org_witness :
  let cl := NewClient (Mock.config Mock.tokens (Mock.remote 200 Mock.oneRepo)) in
  "acme" <> "globex" /\
  localcache.get
    (Load (NewRepositoryCache cl "acme" "/var/cache") 1000
       (Mock.emptyStore, Mock.start)).2.1
    (localcache.name (cache (NewRepositoryCache cl "globex" "/var/cache")))
  = localcache.get Mock.emptyStore
      (localcache.name (cache (NewRepositoryCache cl "globex" "/var/cache"))).
Proof.
  intros cl.
  assert (Hne : "acme" <> "globex") by discriminate.
  split; [exact Hne|].
  apply (repositoryCache_Load_other_org cl cl "acme" "globex" "/var/cache" 1000
           Mock.emptyStore Mock.start Hne).
Defined.

Lemma repositoryCache_Load_hit_witness :
  let cl := NewClient (Mock.config Mock.tokens (Mock.remote 200 Mock.oneRepo)) in
  let r := NewRepositoryCache cl "acme" "/var/cache" in
  let v := [Repo.set_Stars 5 (Repo.set_Name "x" zero)] in
  let first := Load r 1000 (Mock.emptyStore, Mock.start) in
  let st1 := first.2.1 in
  let w1 := first.2.2 in
  let req := {| http.Method := "GET";
                http.URL := "https://api.github.com/users/acme/repos";
                http.Headers := http.Set_ ∅ "Authorization" "Bearer t0";
                http.Data := None |} in
  let later := 1000 + 23 * (3600 * 1000000000) in
  ((forall e : localcache.Entry Repositories,
      localcache.decode (localcache.encode e) = Some e) /\
   first = ((v, None), (st1, w1)) /\
   httpclient.wire w1 = httpclient.wire Mock.start ++ [req] /\
   later - 1000 < localcache.validity (cache r)) /\
  Load r later (st1, w1) = ((v, None), (st1, w1)).
Proof.
  intros cl r v first st1 w1 req later.
  split; [repeat split|].
  apply (repositoryCache_Load_hit r 1000 later Mock.emptyStore st1 Mock.start w1
           v req).
  - intros e. reflexivity.
  - reflexivity.
  - reflexivity.
  - reflexivity.
Defined.

(** * [ListRuns] and the count of the runs *)

Section RunsFacts.

Context {S workflowRun : Type} `{!Unmarshal workflowRun}.
Import httpclient.

Local Abbreviation runs_fields :=
  [ field "total_count" (@TotalCount workflowRun)
      (fun v r => {| TotalCount := v; WorkflowRuns := WorkflowRuns r |});
    field "workflow_runs" (@WorkflowRuns workflowRun)
      (fun v r => {| TotalCount := TotalCount r; WorkflowRuns := v |}) ].

(** The two keys the decoder of the answer knows, in any letter case. *)
Lemma findField_runs (k : string) :
  findField runs_fields k =
    if equalFold "total_count" k then
      Some (fun j (c : @runsResponse workflowRun) =>
              let '(b, e) := unmarshal j (TotalCount c) in
              ({| TotalCount := b; WorkflowRuns := WorkflowRuns c |}, e))
    else if equalFold "workflow_runs" k then
      Some (fun j (c : @runsResponse workflowRun) =>
              let '(b, e) := unmarshal j (WorkflowRuns c) in
              ({| TotalCount := TotalCount c; WorkflowRuns := b |}, e))
    else None.
Proof.
  unfold findField. cbn [List.find field fst snd].
  destruct (bool_decide ("total_count" = k)) eqn:H1.
  { apply bool_decide_eq_true in H1. subst k. reflexivity. }
  destruct (bool_decide ("workflow_runs" = k)) eqn:H2.
  { apply bool_decide_eq_true in H2. subst k. reflexivity. }
  destruct (equalFold "total_count" k); [reflexivity|].
  destruct (equalFold "workflow_runs" k); reflexivity.
Qed.

Lemma fst_saveError {A} (p : A * option error) (e : option error) :
  (let '(res, es) := p in (res, saveError e es)).1 = p.1.
Proof. destruct p; reflexivity. Qed.

(** The runs decoded from an object depend on the runs the variable
    held and on the members other than "total_count" only. *)
Lemma unmarshal_runs_without_count (ms : list (string * json))
    (cur cur' : @runsResponse workflowRun) :
  WorkflowRuns cur = WorkflowRuns cur' ->
  WorkflowRuns (unmarshal (JObj ms) cur).1 =
  WorkflowRuns
    (unmarshal
       (JObj (List.filter (fun m => negb (equalFold "total_count" m.1)) ms))
       cur').1.
Proof.
  cbn [unmarshal Unmarshal_runsResponse unmarshal_struct].
  revert cur cur'. induction ms as [|[k v] ms IH]; intros cur cur' Hruns.
  - exact Hruns.
  - cbn [List.filter fst unmarshal_members]. rewrite findField_runs.
    destruct (equalFold "total_count" k) eqn:Hfold; cbn [negb].
    + destruct (unmarshal v (TotalCount cur)) as [b e].
      rewrite fst_saveError. apply IH. exact Hruns.
    + cbn [unmarshal_members]. rewrite findField_runs, Hfold.
      destruct (equalFold "workflow_runs" k); [|apply IH; exact Hruns].
      rewrite Hruns. destruct (unmarshal v (WorkflowRuns cur')) as [b e].
      rewrite !fst_saveError. apply IH. reflexivity.
Qed.

(** [ListRuns] sends a GET of the runs of the workflow file
    {workflow}.yml, and the runs it returns for a 2xx answer are those
    of the answer with its "total_count" members left out: the count
    never reaches the result. *)
Theorem ListRuns_drops_total_count (c : GitHubConfig.t S)
    (org repo workflow : string) (w : World S) tok s' (status : Z)
    (ms : list (string * json)) :
  GitHubConfig.Token c (source w) = ((tok, None), s') ->
  is2xx status = true ->
  (forall q, GitHubConfig.transport c q =
     inl {| http.StatusCode := status; http.Body := Some (JObj ms) |}) ->
  exists q,
    wire (@ListRuns S workflowRun _ (NewClient c) org repo workflow w).2
      = wire w ++ [q] /\
    http.Method q = "GET" /\
    http.URL q = "https://api.github.com" +:+ "/repos/" +:+ org +:+ "/" +:+ repo +:+
                 "/actions/workflows/" +:+ workflow +:+ ".yml/runs" /\
    (@ListRuns S workflowRun _ (NewClient c) org repo workflow w).1.1
      = WorkflowRuns
          (unmarshal
             (JObj (List.filter (fun m => negb (equalFold "total_count" m.1)) ms))
             (zero : @runsResponse workflowRun)).1.
Proof.
  intros Htok Hst Hrt.
  unfold ListRuns, gitHubAPI, bind, ret.
  rewrite (Do_authorized _ _ _ _ _ _ _ _ _ Htok). cbn zeta.
  rewrite Hrt. unfold receive. cbn [http.StatusCode http.Body].
  rewrite Hst. unfold WithResponseUnmarshal.
  pose proof (unmarshal_runs_without_count ms zero zero eq_refl) as Hruns.
  destruct (unmarshal (JObj ms) zero) as [resp err].
  eexists. cbn. repeat split. exact Hruns.
Qed.

End RunsFacts.

Lemma ListRuns_drops_total_count_witness :
  let ms := [("total_count", JStr "many");
             ("workflow_runs", JArr [JObj []; JObj []])] in
  let c := Mock.config Mock.tokens (Mock.remote 200 (JObj ms)) in
  (GitHubConfig.Token c (httpclient.source Mock.start)
     = (({| TokenType := "Bearer"; AccessToken := "t0" |}, None), 1%nat) /\
   httpclient.is2xx 200 = true /\
   (forall q, GitHubConfig.transport c q =
      inl {| http.StatusCode := 200; http.Body := Some (JObj ms) |})) /\
  exists q,
    httpclient.wire (@ListRuns nat unit _ (NewClient c) "acme" "widget" "build" Mock.start).2
      = httpclient.wire Mock.start ++ [q] /\
    http.Method q = "GET" /\
    http.URL q = "https://api.github.com" +:+ "/repos/" +:+ "acme" +:+ "/" +:+ "widget" +:+
                 "/actions/workflows/" +:+ "build" +:+ ".yml/runs" /\
    (@ListRuns nat unit _ (NewClient c) "acme" "widget" "build" Mock.start).1.1
      = WorkflowRuns
          (unmarshal
             (JObj (List.filter (fun m => negb (equalFold "total_count" m.1)) ms))
             (zero : @runsResponse unit)).1.
Proof.
  intros ms c. split; [repeat split|].
  apply (ListRuns_drops_total_count (workflowRun := unit)
           c "acme" "widget" "build" Mock.start
           {| TokenType := "Bearer"; AccessToken := "t0" |} 1%nat 200 ms).
  - reflexivity.
  - reflexivity.
  - intros q. reflexivity.
Defined.
